(** * Recipe extraction: schema validation, normalization and the HTTP route

  A shallow embedding of the extraction pipeline of the repository:

  - [app/api/extract-recipe/route.ts]  (module [Route]):  the zod schemas
    [IngredientSchema] and [RecipeSchema] with their [transform] hooks, the
    chat prompt and the [POST] handler;
  - [app/utils/extractRecipe.ts]  (module [ExtractRecipe]):  the second,
    older [RecipeSchema] and its structured output parser;
  - [app/page.tsx]  (module [Page]):  [extractTextFromPDF],
    [handleFileChange] and [processRecipe] of the page component.

  Values are modelled as JavaScript has them: a JSON value is a tree whose
  numbers are IEEE 754 doubles ([spec_float]), whose objects are lists of
  key/value bindings and in which [null] is a value of its own, while a
  missing property ([undefined]) is the absence of a binding.  The zod
  combinators the schemas are built from are modelled after zod 3. *)

From Stdlib Require Import String Ascii List Bool Arith ZArith Lia.
From Stdlib Require Import Floats.SpecFloat.
Import ListNotations.
Local Open Scope string_scope.
Local Open Scope list_scope.

Set Implicit Arguments.
Set Warnings "-register-all".

(* ===================================================================== *)
(** ** JavaScript values                                                  *)
(* ===================================================================== *)

Module JS.

(** A JavaScript number. *)
Definition number := spec_float.

Definition zero : number := S754_zero false.
Definition neg_zero : number := S754_zero true.

(** The number written by an integer literal, [of_Z 20] for [20]. *)
Definition of_Z (z : Z) : number :=
  match z with
  | Z0 => zero
  | Zpos p => S754_finite false p 0
  | Zneg p => S754_finite true p 0
  end.

(** [x < y] and [x >= y] of JavaScript; both are false on [NaN]. *)
Definition lt (x y : number) : bool := SFltb x y.
Definition ge (x y : number) : bool := SFleb y x.

Definition isNaN (x : number) : bool :=
  match x with S754_nan => true | _ => false end.

(** [Number.isInteger]. *)
Definition isInteger (x : number) : bool :=
  match x with
  | S754_zero _ => true
  | S754_finite _ m e =>
      (0 <=? e)%Z || (Z.pos m mod 2 ^ (- e) =? 0)%Z
  | S754_infinity _ | S754_nan => false
  end.

(** The value [JSON.parse] returns, and any plain data value built from
    object and array literals.  In [JObj kv] the first binding of a key is
    the property of that name. *)
Inductive json : Type :=
| JNull
| JBool (b : bool)
| JNum (x : number)
| JStr (s : string)
| JArr (l : list json)
| JObj (kv : list (string * json)).

(** Property lookup [o.k]; [None] is [undefined]. *)
Fixpoint get (k : string) (kv : list (string * json)) : option json :=
  match kv with
  | [] => None
  | (k', v) :: rest => if String.eqb k k' then Some v else get k rest
  end.

(** [typeof v === 'string']. *)
Definition is_string (v : option json) : bool :=
  match v with Some (JStr _) => true | _ => false end.

(** Truthiness, the test behind [!x], [x || d] and [x && y]. *)
Class Truthy (A : Type) := truthy : A -> bool.

#[export] Instance Truthy_string : Truthy string :=
  fun s => negb (String.eqb s "").

#[export] Instance Truthy_number : Truthy number :=
  fun x => match x with S754_zero _ | S754_nan => false | _ => true end.

(** Arrays are objects: always truthy, also when empty. *)
#[export] Instance Truthy_array {A} : Truthy (list A) := fun _ => true.

#[export] Instance Truthy_json : Truthy json :=
  fun v => match v with
           | JNull => false
           | JBool b => b
           | JNum x => truthy x
           | JStr s => truthy s
           | JArr _ | JObj _ => true
           end.

(** A possibly [undefined] value. *)
#[export] Instance Truthy_optional {A} `{Truthy A} : Truthy (option A) :=
  fun o => match o with Some x => truthy x | None => false end.

(** [x || d]. *)
Definition or_else {A} `{Truthy A} (x d : A) : A :=
  if truthy x then x else d.

(** Whether [null] occurs anywhere in a value. *)
Fixpoint has_null (v : json) : bool :=
  match v with
  | JNull => true
  | JBool _ | JNum _ | JStr _ => false
  | JArr l => existsb has_null l
  | JObj kv => existsb (fun p => has_null (snd p)) kv
  end.

(** Whether an infinity or [NaN] occurs anywhere in a value. *)
Fixpoint has_nonfinite (v : json) : bool :=
  match v with
  | JNum (S754_nan | S754_infinity _) => true
  | JNull | JBool _ | JNum _ | JStr _ => false
  | JArr l => existsb has_nonfinite l
  | JObj kv => existsb (fun p => has_nonfinite (snd p)) kv
  end.

(** [JSON.parse(JSON.stringify(x))] of a number: [NaN] and the infinities
    are written as [null], a negative zero as [0]; any other number is
    read back as it was. *)
Definition number_roundtrip (x : number) : json :=
  match x with
  | S754_nan | S754_infinity _ => JNull
  | S754_zero _ => JNum zero
  | S754_finite _ _ _ => JNum x
  end.

(** [JSON.parse(JSON.stringify(v))]: a value as it is once it has been sent
    as JSON text and read back. *)
Fixpoint JSON_roundtrip (v : json) : json :=
  match v with
  | JNull | JBool _ | JStr _ => v
  | JNum x => number_roundtrip x
  | JArr l => JArr (map JSON_roundtrip l)
  | JObj kv => JObj (map (fun p => (fst p, JSON_roundtrip (snd p))) kv)
  end.

End JS.

Export JS.
Infix "|||" := JS.or_else (at level 50, left associativity).

(* ===================================================================== *)
(** ** The zod combinators used by the schemas                            *)
(* ===================================================================== *)

Module Zod.

(** The issue codes zod reports for these schemas. *)
Inductive ZodIssue : Type :=
| invalid_type
| too_small
| invalid_enum_value.

(** [safeParse]: the parsed data, or the (first) issue.  [parse] throws a
    [ZodError] exactly when this is [Err]. *)
Inductive result (A : Type) : Type :=
| Ok (a : A)
| Err (e : ZodIssue).
Arguments Ok {A} a.
Arguments Err {A} e.

Definition bind {A B} (r : result A) (k : A -> result B) : result B :=
  match r with Ok a => k a | Err e => Err e end.

Definition is_ok {A} (r : result A) : bool :=
  match r with Ok _ => true | Err _ => false end.

(** A schema with output type [A]; its input is a property value that may
    be [undefined] ([None]). *)
Definition schema (A : Type) := option json -> result A.

(** [z.string()] *)
Definition string_ : schema string :=
  fun v => match v with Some (JStr s) => Ok s | _ => Err invalid_type end.

(** [.min(1)] on a string schema *)
Definition min (n : nat) (s : schema string) : schema string :=
  fun v => bind (s v) (fun x =>
    if Nat.ltb (String.length x) n then Err too_small else Ok x).

(** [z.number()]: [NaN] has the parsed type [nan], not [number]. *)
Definition number_ : schema number :=
  fun v => match v with
           | Some (JNum x) => if isNaN x then Err invalid_type else Ok x
           | _ => Err invalid_type
           end.

(** [.int()] *)
Definition int (s : schema number) : schema number :=
  fun v => bind (s v) (fun x =>
    if isInteger x then Ok x else Err invalid_type).

(** [.nonnegative()], that is [.min(0)] inclusive: refused when [x < 0]. *)
Definition nonnegative (s : schema number) : schema number :=
  fun v => bind (s v) (fun x =>
    if lt x zero then Err too_small else Ok x).

(** [z.enum([...])] *)
Definition enum (options : list string) : schema string :=
  fun v => match v with
           | Some (JStr s) =>
               if existsb (String.eqb s) options then Ok s
               else Err invalid_enum_value
           | _ => Err invalid_type
           end.

(** Every element through the element schema, in order. *)
Fixpoint parse_elements {A} (s : schema A) (l : list json)
  : result (list A) :=
  match l with
  | [] => Ok []
  | x :: rest =>
      bind (s (Some x)) (fun a =>
      bind (parse_elements s rest) (fun r => Ok (a :: r)))
  end.

(** [z.array(s)] *)
Definition array {A} (s : schema A) : schema (list A) :=
  fun v => match v with
           | Some (JArr l) => parse_elements s l
           | _ => Err invalid_type
           end.

(** [.optional()]: [undefined] passes; [null] does not. *)
Definition optional {A} (s : schema A) : schema (option A) :=
  fun v => match v with
           | None => Ok None
           | Some _ => bind (s v) (fun a => Ok (Some a))
           end.

(** [.default(d)]: [undefined] is replaced by [d] before the inner schema
    runs. *)
Definition default {A} (d : json) (s : schema A) : schema A :=
  fun v => match v with
           | None => s (Some d)
           | Some _ => s v
           end.

(** [z.object({...})]: the shape reads the declared keys of an object;
    keys that are not declared are stripped, since the output is built
    from the declared ones only. *)
Definition object {A} (shape : (string -> option json) -> result A)
  : schema A :=
  fun v => match v with
           | Some (JObj kv) => shape (fun k => get k kv)
           | _ => Err invalid_type
           end.

(** [.transform(f)] *)
Definition transform {A B} (s : schema A) (f : A -> B) : schema B :=
  fun v => bind (s v) (fun a => Ok (f a)).

(** [.describe(text)] only attaches documentation. *)
Definition describe {A} (s : schema A) (text : string) : schema A := s.

End Zod.

Import Zod.
Notation "x <- r ;; k" := (Zod.bind r (fun x => k))
(at level 61, r at next level, right associativity).

(* ===================================================================== *)
(** ** The document types                                                 *)
(* ===================================================================== *)

Module SubIngredient.
Record t : Type := mk {
  name : string;
  amount_per_portion_grams : number
}.

Definition to_json (s : t) : json :=
  JObj [("name", JStr (name s));
        ("amount_per_portion_grams", JNum (amount_per_portion_grams s))].
End SubIngredient.

Module Ingredient.
(** [sub_ingredients?:]  [None] is the absence of the key. *)
Record t : Type := mk {
  name : string;
  amount_per_portion_grams : number;
  sub_ingredients : option (list SubIngredient.t)
}.

Definition to_json (i : t) : json :=
  JObj ([("name", JStr (name i));
         ("amount_per_portion_grams", JNum (amount_per_portion_grams i))]
        ++ match sub_ingredients i with
           | Some l => [("sub_ingredients", JArr (map SubIngredient.to_json l))]
           | None => []
           end).
End Ingredient.

Module Component.
Record t : Type := mk {
  name : string;
  type : string;
  prep_time_minutes : number;
  cook_time_minutes : number;
  cook_temp_fahrenheit : number;
  cook_method : string;
  portion_weight_grams : number;
  ingredients : list Ingredient.t
}.

Definition to_json (c : t) : json :=
  JObj [("name", JStr (name c));
        ("type", JStr (type c));
        ("prep_time_minutes", JNum (prep_time_minutes c));
        ("cook_time_minutes", JNum (cook_time_minutes c));
        ("cook_temp_fahrenheit", JNum (cook_temp_fahrenheit c));
        ("cook_method", JStr (cook_method c));
        ("portion_weight_grams", JNum (portion_weight_grams c));
        ("ingredients", JArr (map Ingredient.to_json (ingredients c)))].
End Component.

Module RecipeDocument.
Record t : Type := mk {
  recipe_name : string;
  chef : string;
  yield_count : number;
  allergens : list string;
  components : list Component.t
}.

(** The document as the plain object it is. *)
Definition to_json (d : t) : json :=
  JObj [("recipe_name", JStr (recipe_name d));
        ("chef", JStr (chef d));
        ("yield_count", JNum (yield_count d));
        ("allergens", JArr (map JStr (allergens d)));
        ("components", JArr (map Component.to_json (components d)))].
End RecipeDocument.

(** The closed set of component categories. *)
Definition component_types : list string :=
["protein"; "starch"; "vegetable"; "sauce"].

(* ===================================================================== *)
(** ** app/api/extract-recipe/route.ts                                    *)
(* ===================================================================== *)

Module Route.

(** The element schema of [sub_ingredients], written inline in the source. *)
Definition SubIngredientObject : schema SubIngredient.t :=
  object (fun o =>
    name <- describe string_ "Sub-ingredient name" (o "name") ;;
    amount_per_portion_grams <-
      describe (nonnegative number_) "Amount per portion in grams"
        (o "amount_per_portion_grams") ;;
    Ok (SubIngredient.mk name amount_per_portion_grams)).

(** The object schema of [IngredientSchema], before its transform. *)
Definition IngredientObject : schema Ingredient.t :=
  object (fun o =>
    name <- describe string_ "Ingredient name" (o "name") ;;
    amount_per_portion_grams <-
      describe (nonnegative number_) "Amount per portion in grams"
        (o "amount_per_portion_grams") ;;
    sub_ingredients <-
      describe (optional (array SubIngredientObject))
        "Sub-ingredients if this is a mixture (like herb crust mixture). OMIT this property entirely if no sub-ingredients exist."
        (o "sub_ingredients") ;;
    Ok (Ingredient.mk name amount_per_portion_grams sub_ingredients)).

(** The transform of [IngredientSchema]: [result] starts with the two
    required properties, and [sub_ingredients] is added only if it exists
    and has items. *)
Definition IngredientTransform (data : Ingredient.t) : Ingredient.t :=
  let result :=
    Ingredient.mk (Ingredient.name data)
                  (Ingredient.amount_per_portion_grams data) None in
  match Ingredient.sub_ingredients data with
  | Some subs =>
      if truthy subs && Nat.ltb 0 (List.length subs)
      then Ingredient.mk (Ingredient.name result)
                         (Ingredient.amount_per_portion_grams result)
                         (Some subs)
      else result
  | None => result
  end.

Definition IngredientSchema : schema Ingredient.t :=
  transform IngredientObject IngredientTransform.

(** The element schema of [components], written inline in the source. *)
Definition ComponentObject : schema Component.t :=
  object (fun o =>
    name <- describe string_
              "Component name like 'Braised Beef' or 'Roasted Vegetables'"
              (o "name") ;;
    type <- describe (enum ["protein"; "starch"; "vegetable"; "sauce"])
              "Component category" (o "type") ;;
    prep_time_minutes <-
      describe (nonnegative (int number_)) "Preparation time in minutes"
        (o "prep_time_minutes") ;;
    cook_time_minutes <-
      describe (nonnegative (int number_)) "Cooking time in minutes"
        (o "cook_time_minutes") ;;
    cook_temp_fahrenheit <-
      describe (nonnegative (int number_))
        "Cooking temperature in Fahrenheit, 0 if not specified"
        (o "cook_temp_fahrenheit") ;;
    cook_method <- describe string_ "Cooking method description"
                     (o "cook_method") ;;
    portion_weight_grams <-
      describe (nonnegative number_) "Final portion weight in grams"
        (o "portion_weight_grams") ;;
    ingredients <-
      describe (array IngredientSchema)
        "List of all ingredients for this component with proper nesting"
        (o "ingredients") ;;
    Ok (Component.mk name type prep_time_minutes cook_time_minutes
          cook_temp_fahrenheit cook_method portion_weight_grams ingredients)).

(** The object schema of [RecipeSchema], before its transform. *)
Definition RecipeObject : schema RecipeDocument.t :=
  object (fun o =>
    recipe_name <- describe string_ "Full name of the recipe"
                     (o "recipe_name") ;;
    chef <- describe string_
              "Chef name if mentioned, empty string if not found"
              (o "chef") ;;
    yield_count <-
      describe (nonnegative number_) "Number of portions this recipe makes"
        (o "yield_count") ;;
    allergens <-
      describe (array string_) "List of allergens found in the recipe"
        (o "allergens") ;;
    components <-
      describe (array ComponentObject)
        "All recipe components (protein, starch, vegetable, sauce)"
        (o "components") ;;
    Ok (RecipeDocument.mk recipe_name chef yield_count allergens components)).

(** The callback of [.map] in the transform.  The spread [...component]
    copies the eight validated properties, and each is then overwritten. *)
Definition ComponentTransform (component : Component.t) : Component.t :=
  Component.mk
    (Component.name component ||| "Unknown Component")
    (Component.type component ||| "protein")
    (Component.prep_time_minutes component ||| zero)
    (Component.cook_time_minutes component ||| zero)
    (Component.cook_temp_fahrenheit component ||| zero)
    (Component.cook_method component ||| "")
    (Component.portion_weight_grams component ||| zero)
    (Component.ingredients component ||| []).

(** The transform of [RecipeSchema]: "Ensure no null values and provide
    defaults". *)
Definition RecipeTransform (data : RecipeDocument.t) : RecipeDocument.t :=
  RecipeDocument.mk
    (RecipeDocument.recipe_name data ||| "Unknown Recipe")
    (RecipeDocument.chef data ||| "")
    (RecipeDocument.yield_count data ||| zero)
    (RecipeDocument.allergens data ||| [])
    (map ComponentTransform (RecipeDocument.components data ||| [])).

Definition RecipeSchema : schema RecipeDocument.t :=
  transform RecipeObject RecipeTransform.

(** [RecipeSchema.safeParse(value)] on a value that is there. *)
Definition normalize (value : json) : result RecipeDocument.t :=
  RecipeSchema (Some value).

(** *** The structured output parser and the prompt *)

(** What the handler's [try] block can throw. *)
Inductive Exception : Type :=
| BodySyntaxError          (* [request.json()] on a body that is not JSON *)
| DestructureTypeError     (* destructuring [null] *)
| MissingInputVariable     (* a template variable without a value *)
| CompletionError          (* the chat model call rejected *)
| OutputParserException.   (* the completion is not JSON, or fails the schema *)

Definition Try (A : Type) : Type := (Exception + A)%type.

(** A parsed f-string template: literal text and [{variables}]. *)
Inductive TemplateNode : Type :=
| Literal (text : string)
| Variable_ (name : string).

Definition dq : string := String (Ascii.ascii_of_nat 34) EmptyString.

Definition systemPrompt : string := (
"
You are an expert culinary data extraction specialist. You must analyze the PROVIDED RECIPE TEXT and extract ALL information from IT ONLY into valid, complete JSON with PROPER NESTED INGREDIENT STRUCTURE.

🚨 CRITICAL: PROCESS ONLY THE PROVIDED RECIPE TEXT - DO NOT USE EXAMPLES OR TEMPLATES! 🚨

EXTRACTION RULES:
- EXTRACT data from the actual recipe text provided by the user
- DO NOT copy example names like " ++ dq ++ "Mediterranean Herb-Crusted Salmon" ++ dq ++ "
- USE the actual recipe name, ingredients, and details from the PROVIDED TEXT
- Process the REAL content, not templates or examples

CRITICAL JSON RULES:
- NEVER return null values - use empty strings " ++ dq ++ dq ++ " or N/A for missing data
- ALWAYS return valid JSON structure matching the exact schema
- ALL string fields must be actual strings, not null
- ALL number fields must be actual numbers, not null
- ALWAYS include all 4 component types: protein, starch, vegetable, sauce
- HANDLE NESTED INGREDIENTS PROPERLY - do not flatten them!
- Only include sub_ingredients property when ingredient has sub-components
- Be thorough and extract all available data
")%string.

(** The text before [{format_instructions}], between the two variables and
    after [{recipe_text}] in the human message. *)
Definition human_head : string :=
"You must extract complete recipe data and return ONLY valid JSON with no null values and PROPER NESTED INGREDIENTS.

    Schema format:
    ".

Definition human_middle : string :=
"

    Recipe text to extract from:
    ".

Definition human_tail : string :=
"

    Return ONLY the complete JSON object with EXACT field names and proper ingredient nesting:".

(** [ChatPromptTemplate.fromMessages([...])] *)
Definition prompt : list (string * list TemplateNode) :=
  [("system", [Literal systemPrompt]);
   ("human", [Literal human_head; Variable_ "format_instructions";
              Literal human_middle; Variable_ "recipe_text";
              Literal human_tail])].

Fixpoint lookup (name : string) (values : list (string * string))
  : option string :=
  match values with
  | [] => None
  | (k, v) :: rest => if String.eqb name k then Some v else lookup name rest
  end.

(** Interpolation: literals are copied, a variable is replaced by its value
    as it is. *)
Fixpoint interpolate (t : list TemplateNode) (values : list (string * string))
  : Try string :=
  match t with
  | [] => inr ""
  | Literal text :: rest =>
      match interpolate rest values with
      | inr s => inr (text ++ s)%string
      | inl e => inl e
      end
  | Variable_ name :: rest =>
      match lookup name values, interpolate rest values with
      | Some v, inr s => inr (v ++ s)%string
      | None, _ => inl MissingInputVariable
      | _, inl e => inl e
      end
  end.

(** The instruction payload: the chat messages as (role, content). *)
Definition Payload : Type := list (string * string).

Fixpoint formatMessages (p : list (string * list TemplateNode))
    (values : list (string * string)) : Try Payload :=
  match p with
  | [] => inr []
  | (role, t) :: rest =>
      match interpolate t values, formatMessages rest values with
      | inr content, inr ms => inr ((role, content) :: ms)
      | inl e, _ => inl e
      | _, inl e => inl e
      end
  end.

(** The values [chain.invoke] is given. *)
Definition invoke_values (recipeText format_instructions : string)
  : list (string * string) :=
  [("recipe_text", recipeText); ("format_instructions", format_instructions)].

(** The Prompt Builder: the first stage of [prompt.pipe(model).pipe(parser)]. *)
Definition build_payload (format_instructions recipeText : string)
  : Try Payload :=
  formatMessages prompt (invoke_values recipeText format_instructions).

(** *** The handler *)

Record NextRequest : Type := {
  (** what [await request.json()] resolves to; [None] when it rejects *)
  request_json : option json
}.

(** A response body is JSON: what the client's [response.json()] reads. *)
Definition ResponseBody : Type := json.

(** The object literal [{ error: '...' }]. *)
Definition ErrorBody (error : string) : json := JObj [("error", JStr error)].

(** The parsed document [result], as the object it is. *)
Definition DocumentBody (document : RecipeDocument.t) : json :=
  RecipeDocument.to_json document.

Record NextResponse : Type := {
  body : ResponseBody;
  status : nat
}.

(** [NextResponse.json(value, { status })]: the value is written with
    [JSON.stringify], so the body the client reads is its round trip; the
    status is 200 by default. *)
Definition NextResponse_json (value : json) (st : option nat)
  : NextResponse :=
  {| body := JSON_roundtrip value;
     status := match st with Some n => n | None => 200 end |}.

(** [const { recipeText } = value]: throws on [null]; a primitive or an
    array has no such property. *)
Definition destructure_recipeText (value : json) : Try (option json) :=
  match value with
  | JNull => inl DestructureTypeError
  | JObj kv => inr (get "recipeText" kv)
  | _ => inr None
  end.

Section Handler.

(** The external collaborators of one request: the text-to-JSON step of
    langchain's [StructuredOutputParser] (fence stripping and [JSON.parse];
    [None] when it throws), the parser's rendered format instructions, and
    the answer of the chat model to a payload ([None] when the call
    rejects). *)
Variable json_of_text : string -> option json.
Variable getFormatInstructions : string.
Variable model : Payload -> option string.

(** [parser.parse(text)], for
    [parser = StructuredOutputParser.fromZodSchema(RecipeSchema)]. *)
Definition parser (text : string) : Try RecipeDocument.t :=
  match json_of_text text with
  | None => inl OutputParserException
  | Some value =>
      match RecipeSchema (Some value) with
      | Ok d => inr d
      | Err _ => inl OutputParserException
      end
  end.

(** [prompt.pipe(model).pipe(parser)] invoked on the recipe text. *)
Definition chain (recipeText : string) : Try RecipeDocument.t :=
  match build_payload getFormatInstructions recipeText with
  | inl e => inl e
  | inr payload =>
      match model payload with
      | None => inl CompletionError
      | Some text => parser text
      end
  end.

(** The body of the [try] block. *)
Definition POST_try (request : NextRequest) : Try NextResponse :=
  match request_json request with
  | None => inl BodySyntaxError
  | Some value =>
      match destructure_recipeText value with
      | inl e => inl e
      | inr recipeText =>
          if negb (truthy recipeText) || negb (is_string recipeText) then
            inr (NextResponse_json (ErrorBody "Recipe text is required")
                   (Some 400))
          else
            match recipeText with
            | Some (JStr text) =>
                match chain text with
                | inr result => inr (NextResponse_json (DocumentBody result) None)
                | inl e => inl e
                end
            | _ => inl DestructureTypeError  (* not reached: it is a string *)
            end
      end
  end.

(** [POST]: whatever is thrown is logged and answered the same way. *)
Definition POST (request : NextRequest) : NextResponse :=
  match POST_try request with
  | inr response => response
  | inl _ =>
      NextResponse_json (ErrorBody "Failed to extract recipe data") (Some 500)
  end.

End Handler.

End Route.

(* ===================================================================== *)
(** ** app/utils/extractRecipe.ts                                         *)
(* ===================================================================== *)

Module ExtractRecipe.

(** The element schema of [ingredients], written inline in the source: it
    declares no [sub_ingredients], so that key is stripped. *)
Definition IngredientObject : schema Ingredient.t :=
  object (fun o =>
    name <- string_ (o "name") ;;
    amount_per_portion_grams <-
      nonnegative number_ (o "amount_per_portion_grams") ;;
    Ok (Ingredient.mk name amount_per_portion_grams None)).

(** The element schema of [components], written inline in the source.  The
    output of [.optional().default(0)] is a number: below [.default] the
    inner schema never sees [undefined]. *)
Definition ComponentObject : schema Component.t :=
  object (fun o =>
    name <- min 1 string_ (o "name") ;;
    type <- enum ["protein"; "starch"; "vegetable"; "sauce"] (o "type") ;;
    prep_time_minutes <- nonnegative (int number_) (o "prep_time_minutes") ;;
    cook_time_minutes <- nonnegative (int number_) (o "cook_time_minutes") ;;
    cook_temp_fahrenheit <-
      default (JNum zero) (optional (nonnegative (int number_)))
        (o "cook_temp_fahrenheit") ;;
    cook_method <- default (JStr "") string_ (o "cook_method") ;;
    portion_weight_grams <-
      nonnegative number_ (o "portion_weight_grams") ;;
    ingredients <- array IngredientObject (o "ingredients") ;;
    Ok (Component.mk name type prep_time_minutes cook_time_minutes
          (match cook_temp_fahrenheit with Some x => x | None => zero end)
          cook_method portion_weight_grams ingredients)).

Definition RecipeSchema : schema RecipeDocument.t :=
  object (fun o =>
    recipe_name <- describe (min 1 string_) "Name of the recipe."
                     (o "recipe_name") ;;
    chef <- default (JStr "") string_ (o "chef") ;;
    yield_count <- nonnegative number_ (o "yield_count") ;;
    allergens <- array string_ (o "allergens") ;;
    components <- array ComponentObject (o "components") ;;
    Ok (RecipeDocument.mk recipe_name chef yield_count allergens components)).

(** [RecipeSchema.safeParse(value)] on a value that is there. *)
Definition normalize (value : json) : result RecipeDocument.t :=
  RecipeSchema (Some value).

Section Extract.

(** The same collaborators as in the route: the text-to-JSON step of the
    structured output parser, its format instructions, the chat model. *)
Variable json_of_text : string -> option json.

(** [parser.parse(text)], for
    [parser = StructuredOutputParser.fromZodSchema(RecipeSchema)]. *)
Definition parser (text : string) : Route.Try RecipeDocument.t :=
  match json_of_text text with
  | None => inl Route.OutputParserException
  | Some value =>
      match RecipeSchema (Some value) with
      | Ok d => inr d
      | Err _ => inl Route.OutputParserException
      end
  end.

End Extract.

End ExtractRecipe.

(* ===================================================================== *)
(** ** app/page.tsx                                                       *)
(* ===================================================================== *)

Module Page.

(** What a [catch] clause receives: an [Error] with its message, or any
    other thrown value. *)
Inductive Thrown : Type :=
| Error (message : string)
| NotAnError.

(** [s.includes(needle)] *)
Definition includes (s needle : string) : bool :=
  match String.index 0 needle s with Some _ => true | None => false end.

Definition newline : string := String (Ascii.ascii_of_nat 10) EmptyString.

(** An item of [textContent.items]; a marked-content item has no [str]. *)
Record TextItem : Type := { str : option string }.

(** What pdf.js makes of a file: the items of its pages in order, or what
    [getDocument], [getPage] or [getTextContent] threw. *)
Definition PdfFile : Type := (Thrown + list (list TextItem))%type.

(** The component's state. *)
Record State : Type := {
  pdfFile : option PdfFile;
  jsonResult : string;
  isProcessing : bool;
  error : option string;
  pdfjsLib : bool          (* whether the library has been loaded *)
}.

(** [handleFileChange] *)
Definition handleFileChange (file : option PdfFile) (s : State) : State :=
  {| pdfFile := file; jsonResult := ""; isProcessing := isProcessing s;
     error := None; pdfjsLib := pdfjsLib s |}.

(** [response.ok] *)
Definition ok (response : Route.NextResponse) : bool :=
  Nat.leb 200 (Route.status response) && Nat.leb (Route.status response) 299.

(** The request [fetch] sends: the body is
    [JSON.stringify({ recipeText })], read back by [request.json()]. *)
Definition request_of (recipeText : string) : Route.NextRequest :=
  {| Route.request_json := Some (JObj [("recipeText", JStr recipeText)]) |}.

Section Component.

(** The code units [trim] removes (white space and line terminators). *)
Variable isWhiteSpace : ascii -> bool.

(** [JSON.stringify(value, null, 2)] *)
Variable render : json -> string.

(** [String(value)], the message [new Error(value)] gets from a value that
    is not a string. *)
Variable toString : json -> string.

(** The message of the [TypeError] for reading a property of [null]. *)
Variable null_property_message : string.

(** [fetch('/api/extract-recipe', ...)]: the response, or what it threw. *)
Variable fetch : Route.NextRequest -> Thrown + Route.NextResponse.

Fixpoint trimStart (s : string) : string :=
  match s with
  | EmptyString => EmptyString
  | String c rest => if isWhiteSpace c then trimStart rest else s
  end.

Fixpoint trimEnd (s : string) : string :=
  match s with
  | EmptyString => EmptyString
  | String c rest =>
      match trimEnd rest with
      | EmptyString => if isWhiteSpace c then EmptyString
                       else String c EmptyString
      | kept => String c kept
      end
  end.

(** [s.trim()] *)
Definition trim (s : string) : string := trimEnd (trimStart s).

(** [item.str || ''] *)
Definition item_text (item : TextItem) : string :=
  match str item with
  | Some s => s ||| ""
  | None => ""
  end.

(** The text of one page: the items that are not blank, joined by a
    space. *)
Definition pageText (items : list TextItem) : string :=
  String.concat " "
    (filter (fun text => Nat.ltb 0 (String.length (trim text)))
       (map item_text items)).

(** One turn of the loop over the pages. *)
Definition addPage (fullText : string) (items : list TextItem) : string :=
  if truthy (trim (pageText items))
  then (fullText ++ pageText items ++ newline ++ newline)%string
  else fullText.

(** The [catch] clause of [extractTextFromPDF]. *)
Definition rethrow (thrown : Thrown) : Thrown :=
  match thrown with
  | Error message =>
      if includes message "Invalid PDF" then
        Error "Invalid PDF file. Please ensure the file is not corrupted."
      else if includes message "worker" then
        Error "PDF worker failed to load. Please refresh the page and try again."
      else if includes message "fetch" then
        Error "Network error loading PDF worker. Please check your internet connection."
      else Error ("Failed to extract text from PDF: " ++ message)%string
  | NotAnError => Error "Failed to extract text from PDF: Unknown error"
  end.

(** The [try] block of [extractTextFromPDF]. *)
Definition extractText_try (file : PdfFile) : Thrown + string :=
  match file with
  | inl thrown => inl thrown
  | inr pages =>
      let fullText := fold_left addPage pages "" in
      if negb (truthy (trim fullText)) then
        inl (Error "No text content found in PDF. The PDF might be image-based or corrupted.")
      else inr (trim fullText)
  end.

(** [extractTextFromPDF] *)
Definition extractTextFromPDF (loaded : bool) (file : PdfFile)
  : Thrown + string :=
  if negb loaded then
    inl (Error "PDF.js library not loaded yet. Please try again.")
  else
    match extractText_try file with
    | inr text => inr text
    | inl thrown => inl (rethrow thrown)
    end.

(** [new Error(errorData.error || 'Failed to extract recipe data')], for
    [errorData] the parsed body of a response that is not ok; reading
    [.error] of [null] throws instead. *)
Definition error_of_body (errorData : json) : Thrown :=
  match errorData with
  | JNull => Error null_property_message
  | JObj kv =>
      match get "error" kv with
      | Some value =>
          if truthy value then
            Error match value with JStr e => e | _ => toString value end
          else Error "Failed to extract recipe data"
      | None => Error "Failed to extract recipe data"
      end
  | _ => Error "Failed to extract recipe data"
  end.

(** The [try] block of [processRecipe]: the new [jsonResult]. *)
Definition processRecipe_try (loaded : bool) (file : PdfFile)
  : Thrown + string :=
  match extractTextFromPDF loaded file with
  | inl thrown => inl thrown
  | inr recipeText =>
      if negb (truthy (trim recipeText)) then
        inl (Error "No text found in PDF")
      else
        match fetch (request_of recipeText) with
        | inl thrown => inl thrown
        | inr response =>
            if negb (ok response) then
              inl (error_of_body (Route.body response))
            else inr (render (Route.body response))
        end
  end.

(** [processRecipe]: the state once it has settled. *)
Definition processRecipe (s : State) : State :=
  match pdfFile s with
  | None =>
      {| pdfFile := pdfFile s; jsonResult := jsonResult s;
         isProcessing := isProcessing s;
         error := Some "Please select a PDF file first";
         pdfjsLib := pdfjsLib s |}
  | Some file =>
      match processRecipe_try (pdfjsLib s) file with
      | inr extracted =>
          {| pdfFile := pdfFile s; jsonResult := extracted;
             isProcessing := false; error := None; pdfjsLib := pdfjsLib s |}
      | inl err =>
          {| pdfFile := pdfFile s; jsonResult := jsonResult s;
             isProcessing := false;
             error := Some match err with
                           | Error message => message
                           | NotAnError => "Failed to process recipe"
                           end;
             pdfjsLib := pdfjsLib s |}
      end
  end.

End Component.

End Page.

(* ===================================================================== *)
(** ** Sample values                                                      *)
(* ===================================================================== *)

Module Samples.

(** [{"name":"Salt","amount_per_portion_grams":2,"sub_ingredients":[]}] *)
Definition salt : json :=
  JObj [("name", JStr "Salt");
        ("amount_per_portion_grams", JNum (of_Z 2));
        ("sub_ingredients", JArr [])].

Definition panko : json :=
  JObj [("name", JStr "Panko"); ("amount_per_portion_grams", JNum (of_Z 12))].

(** [{"name":"Herb mix","amount_per_portion_grams":20,"sub_ingredients":[{"name":"Panko","amount_per_portion_grams":12}]}] *)
Definition herb_mix : json :=
  JObj [("name", JStr "Herb mix");
        ("amount_per_portion_grams", JNum (of_Z 20));
        ("sub_ingredients", JArr [panko])].

(** [{"recipe_name":"Soup","components":[]}] *)
Definition soup_minimal : json :=
  JObj [("recipe_name", JStr "Soup"); ("components", JArr [])].

(** [{"recipe_name":"Soup","chef":"","yield_count":0,"allergens":[],"components":[]}] *)
Definition soup_full : json :=
  JObj [("recipe_name", JStr "Soup"); ("chef", JStr "");
        ("yield_count", JNum zero); ("allergens", JArr []);
        ("components", JArr [])].

Definition soup_document : RecipeDocument.t :=
  RecipeDocument.mk "Soup" "" zero [] [].

(** A component object with the given name, category and ingredients. *)
Definition component (name type : json) (ingredients : list json) : json :=
  JObj [("name", name); ("type", type);
        ("prep_time_minutes", JNum (of_Z 10));
        ("cook_time_minutes", JNum (of_Z 25));
        ("cook_temp_fahrenheit", JNum (of_Z 400));
        ("cook_method", JStr "Roast");
        ("portion_weight_grams", JNum (of_Z 150));
        ("ingredients", JArr ingredients)].

(** A complete recipe object around the given name and components. *)
Definition recipe (recipe_name : json) (components : list json) : json :=
  JObj [("recipe_name", recipe_name); ("chef", JStr "Ana");
        ("yield_count", JNum (of_Z 4)); ("allergens", JArr [JStr "fish"]);
        ("components", JArr components)].

Definition salmon : json :=
  recipe (JStr "Salmon") [component (JStr "Fish") (JStr "protein") [salt; herb_mix]].

(** What the route makes of [salmon]: the empty [sub_ingredients] of the
    salt is gone, the herb mix keeps its one sub-ingredient. *)
Definition salmon_document : RecipeDocument.t :=
  RecipeDocument.mk "Salmon" "Ana" (of_Z 4) ["fish"]
    [Component.mk "Fish" "protein" (of_Z 10) (of_Z 25) (of_Z 400) "Roast"
       (of_Z 150)
       [Ingredient.mk "Salt" (of_Z 2) None;
        Ingredient.mk "Herb mix" (of_Z 20)
          (Some [SubIngredient.mk "Panko" (of_Z 12)])]].

(** A recipe whose name and whose component's name are empty strings. *)
Definition unnamed : json :=
  recipe (JStr "") [component (JStr "") (JStr "sauce") []].

Definition unnamed_document : RecipeDocument.t :=
  RecipeDocument.mk "Unknown Recipe" "Ana" (of_Z 4) ["fish"]
    [Component.mk "Unknown Component" "sauce" (of_Z 10) (of_Z 25) (of_Z 400)
       "Roast" (of_Z 150) []].

(** A recipe object without [recipe_name]. *)
Definition nameless : json :=
  JObj [("chef", JStr "Ana"); ("yield_count", JNum (of_Z 4));
        ("allergens", JArr []); ("components", JArr [])].

(** A recipe whose only component has the category "dessert". *)
Definition dessert : json :=
  recipe (JStr "Cake") [component (JStr "Sponge") (JStr "dessert") []].

(** [{"recipe_name":"Soup","chef":"","yield_count":-1,"allergens":[],"components":[]}] *)
Definition soup_negative : json :=
  JObj [("recipe_name", JStr "Soup"); ("chef", JStr "");
        ("yield_count", JNum (of_Z (-1))); ("allergens", JArr []);
        ("components", JArr [])].

(** A recipe object without [chef]. *)
Definition chefless : json :=
  JObj [("recipe_name", JStr "Soup"); ("yield_count", JNum (of_Z 2));
        ("allergens", JArr []); ("components", JArr [])].

Definition chefless_document : RecipeDocument.t :=
  RecipeDocument.mk "Soup" "" (of_Z 2) [] [].

(** [{"recipe_name":"Soup","chef":"","yield_count":-0,"allergens":[],"components":[]}] *)
Definition soup_neg_zero : json :=
  JObj [("recipe_name", JStr "Soup"); ("chef", JStr "");
        ("yield_count", JNum neg_zero); ("allergens", JArr []);
        ("components", JArr [])].

(** The white space and line terminator code units below 256. *)
Definition white_space (c : ascii) : bool :=
  existsb (Nat.eqb (nat_of_ascii c)) [9; 10; 11; 12; 13; 32; 160].

(** A file of three pages: a title between blank items, a page with only a
    marked-content item and a blank item, and a page with two items. *)
Definition pdf : Page.PdfFile :=
  inr [[Page.Build_TextItem (Some "  "); Page.Build_TextItem (Some "Soup ");
        Page.Build_TextItem None];
       [Page.Build_TextItem None; Page.Build_TextItem (Some " ")];
       [Page.Build_TextItem (Some "2 cups"); Page.Build_TextItem (Some "water")]].

(** A file whose pages have no text. *)
Definition scanned_pdf : Page.PdfFile :=
  inr [[Page.Build_TextItem None]; []; [Page.Build_TextItem (Some "  ")]].

(** A component without [cook_method] and [cook_temp_fahrenheit], in a
    recipe without [chef]. *)
Definition sparse : json :=
  JObj [("recipe_name", JStr "Rice"); ("yield_count", JNum (of_Z 2));
        ("allergens", JArr []);
        ("components",
         JArr [JObj [("name", JStr "Rice"); ("type", JStr "starch");
                     ("prep_time_minutes", JNum (of_Z 5));
                     ("cook_time_minutes", JNum (of_Z 18));
                     ("portion_weight_grams", JNum (of_Z 100));
                     ("ingredients", JArr [salt])]])].

Definition sparse_document : RecipeDocument.t :=
  RecipeDocument.mk "Rice" "" (of_Z 2) []
    [Component.mk "Rice" "starch" (of_Z 5) (of_Z 18) zero "" (of_Z 100)
       [Ingredient.mk "Salt" (of_Z 2) None]].

End Samples.

(* ===================================================================== *)
(** ** Shapes of values and of documents                                  *)
(* ===================================================================== *)

(** A number the schemas accept under [z.number().nonnegative()], and under
    [z.number().int().nonnegative()]. *)
Definition valid_number (x : number) : Prop :=
  isNaN x = false /\ lt x zero = false.

Definition valid_int (x : number) : Prop :=
  valid_number x /\ isInteger x = true.

(** A number that [x || 0] leaves alone. *)
Definition settled (x : number) : Prop := x ||| zero = x.

(** *** JSON values that conform to the route's schema *)

Definition is_string_value (v : option json) : Prop :=
  exists s, v = Some (JStr s).

Definition is_nonneg_number (v : option json) : Prop :=
  exists x, v = Some (JNum x) /\ valid_number x.

Definition is_nonneg_int (v : option json) : Prop :=
  exists x, v = Some (JNum x) /\ valid_int x.

Definition is_array_of (P : json -> Prop) (v : option json) : Prop :=
  exists l, v = Some (JArr l) /\ Forall P l.

Definition is_component_type (v : option json) : Prop :=
  exists t, v = Some (JStr t) /\ In t component_types.

Definition conforms_sub_ingredient (j : json) : Prop :=
  exists kv, j = JObj kv
    /\ is_string_value (get "name" kv)
    /\ is_nonneg_number (get "amount_per_portion_grams" kv).

Definition conforms_ingredient (j : json) : Prop :=
  exists kv, j = JObj kv
    /\ is_string_value (get "name" kv)
    /\ is_nonneg_number (get "amount_per_portion_grams" kv)
    /\ (get "sub_ingredients" kv = None
        \/ is_array_of conforms_sub_ingredient (get "sub_ingredients" kv)).

Definition conforms_component (j : json) : Prop :=
  exists kv, j = JObj kv
    /\ is_string_value (get "name" kv)
    /\ is_component_type (get "type" kv)
    /\ is_nonneg_int (get "prep_time_minutes" kv)
    /\ is_nonneg_int (get "cook_time_minutes" kv)
    /\ is_nonneg_int (get "cook_temp_fahrenheit" kv)
    /\ is_string_value (get "cook_method" kv)
    /\ is_nonneg_number (get "portion_weight_grams" kv)
    /\ is_array_of conforms_ingredient (get "ingredients" kv).

Definition conforms_recipe (j : json) : Prop :=
  exists kv, j = JObj kv
    /\ is_string_value (get "recipe_name" kv)
    /\ is_string_value (get "chef" kv)
    /\ is_nonneg_number (get "yield_count" kv)
    /\ is_array_of (fun x => is_string_value (Some x)) (get "allergens" kv)
    /\ is_array_of conforms_component (get "components" kv).

(** *** Documents as the route's schema leaves them *)

Definition SubIngredient_valid (s : SubIngredient.t) : Prop :=
  valid_number (SubIngredient.amount_per_portion_grams s).

(** [sub_ingredients] is absent or has an element. *)
Definition Ingredient_normal (i : Ingredient.t) : Prop :=
  valid_number (Ingredient.amount_per_portion_grams i)
  /\ match Ingredient.sub_ingredients i with
     | Some subs => subs <> [] /\ Forall SubIngredient_valid subs
     | None => True
     end.

Definition Component_valid (c : Component.t) : Prop :=
  In (Component.type c) component_types
  /\ valid_int (Component.prep_time_minutes c)
  /\ valid_int (Component.cook_time_minutes c)
  /\ valid_int (Component.cook_temp_fahrenheit c)
  /\ valid_number (Component.portion_weight_grams c)
  /\ Forall Ingredient_normal (Component.ingredients c).

Definition Component_normal (c : Component.t) : Prop :=
  Component_valid c
  /\ Component.name c <> ""
  /\ settled (Component.prep_time_minutes c)
  /\ settled (Component.cook_time_minutes c)
  /\ settled (Component.cook_temp_fahrenheit c)
  /\ settled (Component.portion_weight_grams c).

Definition Recipe_valid (d : RecipeDocument.t) : Prop :=
  valid_number (RecipeDocument.yield_count d)
  /\ Forall Component_valid (RecipeDocument.components d).

Definition Recipe_normal (d : RecipeDocument.t) : Prop :=
  RecipeDocument.recipe_name d <> ""
  /\ valid_number (RecipeDocument.yield_count d)
  /\ settled (RecipeDocument.yield_count d)
  /\ Forall Component_normal (RecipeDocument.components d).

(** Every numeric field of a document is [>= 0]. *)
Definition SubIngredient_nonneg (s : SubIngredient.t) : Prop :=
  ge (SubIngredient.amount_per_portion_grams s) zero = true.

Definition Ingredient_nonneg (i : Ingredient.t) : Prop :=
  ge (Ingredient.amount_per_portion_grams i) zero = true
  /\ forall subs, Ingredient.sub_ingredients i = Some subs ->
                  Forall SubIngredient_nonneg subs.

Definition Component_nonneg (c : Component.t) : Prop :=
  ge (Component.prep_time_minutes c) zero = true
  /\ ge (Component.cook_time_minutes c) zero = true
  /\ ge (Component.cook_temp_fahrenheit c) zero = true
  /\ ge (Component.portion_weight_grams c) zero = true
  /\ Forall Ingredient_nonneg (Component.ingredients c).

Definition Recipe_nonneg (d : RecipeDocument.t) : Prop :=
  ge (RecipeDocument.yield_count d) zero = true
  /\ Forall Component_nonneg (RecipeDocument.components d).

(** The document with every [sub_ingredients] removed. *)
Definition Ingredient_erase (i : Ingredient.t) : Ingredient.t :=
  Ingredient.mk (Ingredient.name i) (Ingredient.amount_per_portion_grams i)
    None.

Definition Component_erase (c : Component.t) : Component.t :=
  Component.mk (Component.name c) (Component.type c)
    (Component.prep_time_minutes c) (Component.cook_time_minutes c)
    (Component.cook_temp_fahrenheit c) (Component.cook_method c)
    (Component.portion_weight_grams c)
    (map Ingredient_erase (Component.ingredients c)).

Definition erase_sub_ingredients (d : RecipeDocument.t) : RecipeDocument.t :=
  RecipeDocument.mk (RecipeDocument.recipe_name d) (RecipeDocument.chef d)
    (RecipeDocument.yield_count d) (RecipeDocument.allergens d)
    (map Component_erase (RecipeDocument.components d)).

(** The two error responses of the handler. *)
Definition invalid_input : Route.NextResponse :=
  Route.NextResponse_json (Route.ErrorBody "Recipe text is required")
    (Some 400).

Definition generic_failure : Route.NextResponse :=
  Route.NextResponse_json (Route.ErrorBody "Failed to extract recipe data")
    (Some 500).

(** Whether every code unit of a string is white space. *)
Fixpoint blank (isWhiteSpace : ascii -> bool) (s : string) : bool :=
  match s with
  | EmptyString => true
  | String c rest => isWhiteSpace c && blank isWhiteSpace rest
  end.

(** Whether some item of some page has text left after trimming. *)
Definition has_text (isWhiteSpace : ascii -> bool)
    (pages : list (list Page.TextItem)) : bool :=
  existsb
    (existsb (fun item =>
                truthy (Page.trim isWhiteSpace (Page.item_text item))))
    pages.

(** The pages without the items that have no text, and without the pages
    this leaves empty. *)
Definition strip_pages (isWhiteSpace : ascii -> bool)
    (pages : list (list Page.TextItem)) : list (list Page.TextItem) :=
  filter (fun items => match items with [] => false | _ :: _ => true end)
    (map (filter (fun item =>
                    truthy (Page.trim isWhiteSpace (Page.item_text item))))
       pages).

(** *** Documents as the schema of extractRecipe.ts leaves them *)

Definition Extract_Ingredient_normal (i : Ingredient.t) : Prop :=
  valid_number (Ingredient.amount_per_portion_grams i)
  /\ Ingredient.sub_ingredients i = None.

Definition Extract_Component_normal (c : Component.t) : Prop :=
  Component.name c <> ""
  /\ In (Component.type c) component_types
  /\ valid_int (Component.prep_time_minutes c)
  /\ valid_int (Component.cook_time_minutes c)
  /\ valid_int (Component.cook_temp_fahrenheit c)
  /\ valid_number (Component.portion_weight_grams c)
  /\ Forall Extract_Ingredient_normal (Component.ingredients c).

Definition Extract_Recipe_normal (d : RecipeDocument.t) : Prop :=
  RecipeDocument.recipe_name d <> ""
  /\ valid_number (RecipeDocument.yield_count d)
  /\ Forall Extract_Component_normal (RecipeDocument.components d).


Example salt_dropped :
  Route.IngredientSchema (Some Samples.salt)
  = Ok (Ingredient.mk "Salt" (of_Z 2) None).
Proof. reflexivity. Qed.

Example herb_mix_kept :
  Route.IngredientSchema (Some Samples.herb_mix)
  = Ok (Ingredient.mk "Herb mix" (of_Z 20)
          (Some [SubIngredient.mk "Panko" (of_Z 12)])).
Proof. reflexivity. Qed.

Example soup_minimal_rejected :
  Route.normalize Samples.soup_minimal = Err invalid_type.
Proof. reflexivity. Qed.

Example soup_full_accepted :
  Route.normalize Samples.soup_full = Ok Samples.soup_document.
Proof. reflexivity. Qed.

(** [-0 || 0] is [0]: the route writes a negative zero as [0], while
    extractRecipe.ts, which has no transform, keeps it. *)
Example neg_zero_yield :
  Route.normalize Samples.soup_neg_zero = Ok Samples.soup_document
  /\ ExtractRecipe.normalize Samples.soup_neg_zero
     = Ok (RecipeDocument.mk "Soup" "" neg_zero [] []).
Proof. split; reflexivity. Qed.

(** A completion that is not JSON, such as "Sorry, I can't process this.",
    makes the structured output parser throw. *)
Example not_json_rejected (json_of_text : string -> option json) text :
  json_of_text text = None ->
  Route.parser json_of_text text = inl Route.OutputParserException.
Proof. intros H. unfold Route.parser. now rewrite H. Qed.

(* ===================================================================== *)
(** ** Numbers and truthiness                                             *)
(* ===================================================================== *)

Lemma not_lt_zero_ge (x : number) :
  isNaN x = false -> lt x zero = false -> ge x zero = true.
Proof.
  destruct x as [s | s | | s m e]; simpl; try discriminate;
    unfold lt, ge, SFltb, SFleb; simpl; destruct s; simpl;
    intros; congruence.
Qed.

Lemma ge_zero_not_lt (x : number) :
  ge x zero = true -> isNaN x = false /\ lt x zero = false.
Proof.
  destruct x as [s | s | | s m e]; simpl;
    unfold lt, ge, SFltb, SFleb; simpl; try destruct s; simpl;
    intros; split; congruence.
Qed.

Lemma or_zero_ge (x : number) : ge x zero = true -> ge (x ||| zero) zero = true.
Proof.
  intros H. unfold or_else. destruct (truthy x); [exact H | reflexivity].
Qed.

Lemma or_zero_idem (x : number) : (x ||| zero) ||| zero = x ||| zero.
Proof.
  unfold or_else. destruct (truthy x) eqn:E; [rewrite E |]; reflexivity.
Qed.

Lemma or_zero_isInteger (x : number) :
  isInteger x = true -> isInteger (x ||| zero) = true.
Proof.
  intros H. unfold or_else. destruct (truthy x); [exact H | reflexivity].
Qed.

Lemma truthy_string_nonempty (s : string) : truthy s = true <-> s <> "".
Proof.
  unfold truthy, Truthy_string. destruct (String.eqb_spec s ""); simpl; split;
    congruence.
Qed.

Lemma or_string_nonempty (s d : string) : d <> "" -> s ||| d <> "".
Proof.
  intros Hd. unfold or_else. destruct (truthy s) eqn:E; [| exact Hd].
  now apply truthy_string_nonempty.
Qed.

Lemma or_string_empty (d : string) : "" ||| d = d.
Proof. reflexivity. Qed.

Lemma or_string_keep (s d : string) : s <> "" -> s ||| d = s.
Proof.
  intros H. apply truthy_string_nonempty in H. unfold or_else. now rewrite H.
Qed.

Lemma or_empty_string (s : string) : s ||| "" = s.
Proof.
  unfold or_else, truthy, Truthy_string.
  destruct (String.eqb_spec s ""); simpl; congruence.
Qed.

Lemma or_array (A : Type) (l d : list A) : l ||| d = l.
Proof. reflexivity. Qed.

(* ===================================================================== *)
(** ** What a successful parse says about its input                       *)
(* ===================================================================== *)

Lemma bind_Ok {A B} (r : result A) (k : A -> result B) (b : B) :
  bind r k = Ok b <-> exists a, r = Ok a /\ k a = Ok b.
Proof.
  destruct r as [a | e]; simpl; split.
  - intros H. now exists a.
  - now intros [a' [[= <-] H]].
  - discriminate.
  - now intros [a' [[=] _]].
Qed.

Lemma object_Ok {A} (shape : (string -> option json) -> result A) v a :
  object shape v = Ok a
  <-> exists kv, v = Some (JObj kv) /\ shape (fun k => get k kv) = Ok a.
Proof.
  unfold object. split.
  - destruct v as [[ | | | | | kv] |]; try discriminate. intros H. now exists kv.
  - now intros [kv [-> H]].
Qed.

Lemma transform_Ok {A B} (s : schema A) (f : A -> B) v b :
  transform s f v = Ok b <-> exists a, s v = Ok a /\ b = f a.
Proof.
  unfold transform. rewrite bind_Ok. split; intros [a [H1 H2]]; exists a;
    split; trivial; congruence.
Qed.

Lemma optional_Ok {A} (s : schema A) v o :
  optional s v = Ok o
  <-> (v = None /\ o = None)
      \/ (exists x a, v = Some x /\ s (Some x) = Ok a /\ o = Some a).
Proof.
  unfold optional. destruct v as [x |]; simpl.
  - rewrite bind_Ok. split.
    + intros [a [H [= <-]]]. right. now exists x, a.
    + intros [[[=] _] | [x' [a [[= <-] [H ->]]]]]. now exists a.
  - split.
    + intros [= <-]. now left.
    + intros [[_ ->] | [x [a [[=] _]]]]. reflexivity.
Qed.

Lemma parse_elements_Ok {A} (s : schema A) l r :
  parse_elements s l = Ok r <-> Forall2 (fun x a => s (Some x) = Ok a) l r.
Proof.
  revert r. induction l as [| x l IH]; intros r; simpl.
  - split.
    + intros [= <-]. constructor.
    + intros H. inversion H. reflexivity.
  - rewrite bind_Ok. split.
    + intros [a [Ha H]]. apply bind_Ok in H. destruct H as [r' [Hr [= <-]]].
      constructor; [exact Ha | now apply IH].
    + intros H. inversion H as [| ? a ? r' Ha Hr]; subst.
      exists a. split; [exact Ha |]. apply bind_Ok. exists r'.
      split; [now apply IH | reflexivity].
Qed.

Lemma array_Ok {A} (s : schema A) v r :
  array s v = Ok r
  <-> exists l, v = Some (JArr l)
                /\ Forall2 (fun x a => s (Some x) = Ok a) l r.
Proof.
  unfold array. split.
  - destruct v as [[ | | | | l | ] |]; try discriminate.
    intros H. exists l. split; [reflexivity | now apply parse_elements_Ok].
  - intros [l [-> H]]. now apply parse_elements_Ok.
Qed.

Lemma string_Ok v s : string_ v = Ok s <-> v = Some (JStr s).
Proof.
  unfold string_. split.
  - destruct v as [[ | | | | | ] |]; try discriminate. now intros [= ->].
  - now intros ->.
Qed.

Lemma min_Ok n (sc : schema string) v s :
  min n sc v = Ok s <-> sc v = Ok s /\ n <= String.length s.
Proof.
  unfold min. rewrite bind_Ok. split.
  - intros [a [Ha H]]. destruct (Nat.ltb_spec (String.length a) n);
      [discriminate |]. injection H as <-. split; [exact Ha | lia].
  - intros [Hs Hn]. exists s. split; [exact Hs |].
    destruct (Nat.ltb_spec (String.length s) n); [lia | reflexivity].
Qed.

Lemma number_Ok v x : number_ v = Ok x <-> v = Some (JNum x) /\ isNaN x = false.
Proof.
  unfold number_. split.
  - destruct v as [[ | | y | | | ] |]; try discriminate.
    destruct (isNaN y) eqn:E; [discriminate |]. now intros [= <-].
  - intros [-> H]. now rewrite H.
Qed.

Lemma int_Ok (sc : schema number) v x :
  int sc v = Ok x <-> sc v = Ok x /\ isInteger x = true.
Proof.
  unfold int. rewrite bind_Ok. split.
  - intros [a [Ha H]]. destruct (isInteger a) eqn:E; [| discriminate].
    injection H as <-. now split.
  - intros [Hs Hn]. exists x. now rewrite Hn.
Qed.

Lemma nonnegative_Ok (sc : schema number) v x :
  nonnegative sc v = Ok x <-> sc v = Ok x /\ lt x zero = false.
Proof.
  unfold nonnegative. rewrite bind_Ok. split.
  - intros [a [Ha H]]. destruct (lt a zero) eqn:E; [discriminate |].
    injection H as <-. now split.
  - intros [Hs Hn]. exists x. now rewrite Hn.
Qed.

Lemma enum_Ok options v s :
  enum options v = Ok s <-> v = Some (JStr s) /\ In s options.
Proof.
  unfold enum. split.
  - destruct v as [[ | | | t | | ] |]; try discriminate.
    destruct (existsb (String.eqb t) options) eqn:E; [| discriminate].
    intros [= <-]. split; [reflexivity |].
    apply existsb_exists in E. destruct E as [o [Ho E]].
    apply String.eqb_eq in E. now subst.
  - intros [-> H].
    replace (existsb (String.eqb s) options) with true; [reflexivity |].
    symmetry. apply existsb_exists. exists s. split; [exact H |].
    apply String.eqb_refl.
Qed.

Lemma default_Some (A : Type) d (sc : schema A) x : default d sc (Some x) = sc (Some x).
Proof. reflexivity. Qed.

Lemma default_None (A : Type) d (sc : schema A) : default d sc None = sc (Some d).
Proof. reflexivity. Qed.

Lemma nonneg_number_Ok v x :
  nonnegative number_ v = Ok x <-> v = Some (JNum x) /\ valid_number x.
Proof.
  rewrite nonnegative_Ok, number_Ok. unfold valid_number. tauto.
Qed.

Lemma nonneg_int_Ok v x :
  nonnegative (int number_) v = Ok x <-> v = Some (JNum x) /\ valid_int x.
Proof.
  rewrite nonnegative_Ok, int_Ok, number_Ok. unfold valid_int, valid_number.
  tauto.
Qed.

(** Take a successful parse apart, field by field. *)
Ltac zod_inv :=
  repeat match goal with
  | H : _ /\ _ |- _ => destruct H
  | H : exists _, _ |- _ => destruct H
  | H : Ok _ = Ok _ |- _ => injection H as H
  | H : Zod.bind _ _ = Ok _ |- _ => apply bind_Ok in H
  | H : describe _ _ _ = Ok _ |- _ => unfold describe in H
  | H : string_ _ = Ok _ |- _ => apply string_Ok in H
  | H : nonnegative number_ _ = Ok _ |- _ => apply nonneg_number_Ok in H
  | H : nonnegative (int number_) _ = Ok _ |- _ => apply nonneg_int_Ok in H
  | H : enum _ _ = Ok _ |- _ => apply enum_Ok in H
  | H : min _ _ _ = Ok _ |- _ => apply min_Ok in H
  | H : object _ _ = Ok _ |- _ => apply object_Ok in H
  | H : transform _ _ _ = Ok _ |- _ => apply transform_Ok in H
  end.

(** Put a successful parse together from its fields. *)
Ltac zod_field :=
  first [ apply string_Ok | apply nonneg_number_Ok | apply nonneg_int_Ok
        | apply enum_Ok | apply min_Ok ]; eauto.

Ltac split_ands := repeat match goal with |- _ /\ _ => split end.

Ltac zod_build :=
  unfold describe;
  repeat (apply bind_Ok; eexists; split; [solve [zod_field | eassumption] |]).

Lemma Route_SubIngredientObject_Ok v s :
  Route.SubIngredientObject v = Ok s
  <-> exists kv, v = Some (JObj kv)
      /\ get "name" kv = Some (JStr (SubIngredient.name s))
      /\ get "amount_per_portion_grams" kv
         = Some (JNum (SubIngredient.amount_per_portion_grams s))
      /\ valid_number (SubIngredient.amount_per_portion_grams s).
Proof.
  unfold Route.SubIngredientObject. split.
  - intros H. zod_inv. subst. simpl. eauto 6.
  - intros [kv [-> [Hn [Ha Hv]]]]. apply object_Ok. exists kv.
    split; [reflexivity |]. zod_build. now destruct s.
Qed.

Lemma Route_IngredientObject_Ok v i :
  Route.IngredientObject v = Ok i
  <-> exists kv, v = Some (JObj kv)
      /\ get "name" kv = Some (JStr (Ingredient.name i))
      /\ get "amount_per_portion_grams" kv
         = Some (JNum (Ingredient.amount_per_portion_grams i))
      /\ valid_number (Ingredient.amount_per_portion_grams i)
      /\ optional (array Route.SubIngredientObject) (get "sub_ingredients" kv)
         = Ok (Ingredient.sub_ingredients i).
Proof.
  unfold Route.IngredientObject. split.
  - intros H. zod_inv. subst. simpl. eauto 7.
  - intros [kv [-> [Hn [Ha [Hv Hs]]]]]. apply object_Ok. exists kv.
    split; [reflexivity |]. zod_build. now destruct i.
Qed.

Lemma Route_ComponentObject_Ok v c :
  Route.ComponentObject v = Ok c
  <-> exists kv, v = Some (JObj kv)
      /\ get "name" kv = Some (JStr (Component.name c))
      /\ (get "type" kv = Some (JStr (Component.type c))
          /\ In (Component.type c) component_types)
      /\ (get "prep_time_minutes" kv
          = Some (JNum (Component.prep_time_minutes c))
          /\ valid_int (Component.prep_time_minutes c))
      /\ (get "cook_time_minutes" kv
          = Some (JNum (Component.cook_time_minutes c))
          /\ valid_int (Component.cook_time_minutes c))
      /\ (get "cook_temp_fahrenheit" kv
          = Some (JNum (Component.cook_temp_fahrenheit c))
          /\ valid_int (Component.cook_temp_fahrenheit c))
      /\ get "cook_method" kv = Some (JStr (Component.cook_method c))
      /\ (get "portion_weight_grams" kv
          = Some (JNum (Component.portion_weight_grams c))
          /\ valid_number (Component.portion_weight_grams c))
      /\ array Route.IngredientSchema (get "ingredients" kv)
         = Ok (Component.ingredients c).
Proof.
  unfold Route.ComponentObject. split.
  - intros H. zod_inv. subst. simpl. exists x. split_ands; solve [reflexivity | assumption].
  - intros [kv [-> H]]. decompose [and] H. apply object_Ok. exists kv.
    split; [reflexivity |]. zod_build. now destruct c.
Qed.

Lemma Route_RecipeObject_Ok v d :
  Route.RecipeObject v = Ok d
  <-> exists kv, v = Some (JObj kv)
      /\ get "recipe_name" kv = Some (JStr (RecipeDocument.recipe_name d))
      /\ get "chef" kv = Some (JStr (RecipeDocument.chef d))
      /\ (get "yield_count" kv = Some (JNum (RecipeDocument.yield_count d))
          /\ valid_number (RecipeDocument.yield_count d))
      /\ array string_ (get "allergens" kv) = Ok (RecipeDocument.allergens d)
      /\ array Route.ComponentObject (get "components" kv)
         = Ok (RecipeDocument.components d).
Proof.
  unfold Route.RecipeObject. split.
  - intros H. zod_inv. subst. simpl. exists x. split_ands; solve [reflexivity | assumption].
  - intros [kv [-> H]]. decompose [and] H. apply object_Ok. exists kv.
    split; [reflexivity |]. zod_build. now destruct d.
Qed.

Lemma Route_normalize_Ok j d :
  Route.normalize j = Ok d
  <-> exists data, Route.RecipeObject (Some j) = Ok data
                   /\ d = Route.RecipeTransform data.
Proof. unfold Route.normalize, Route.RecipeSchema. apply transform_Ok. Qed.

(* ===================================================================== *)
(** ** What the route's schema guarantees about its output                *)
(* ===================================================================== *)

Lemma Forall2_Forall_right {A B} (R : A -> B -> Prop) (P : B -> Prop) l r :
  (forall x a, R x a -> P a) -> Forall2 R l r -> Forall P r.
Proof.
  intros HP H. induction H; constructor; eauto.
Qed.

Lemma valid_number_ge x : valid_number x -> ge x zero = true.
Proof. intros [H1 H2]. now apply not_lt_zero_ge. Qed.

Lemma valid_number_or_zero x : valid_number x -> valid_number (x ||| zero).
Proof.
  intros H. unfold or_else. destruct (truthy x); [exact H | now split].
Qed.

Lemma valid_int_or_zero x : valid_int x -> valid_int (x ||| zero).
Proof.
  intros [H1 H2]. split; [now apply valid_number_or_zero |].
  now apply or_zero_isInteger.
Qed.

Lemma settled_or_zero x : settled (x ||| zero).
Proof. apply or_zero_idem. Qed.

Lemma component_type_truthy t d : In t component_types -> t ||| d = t.
Proof.
  intros H. apply or_string_keep. intros ->. simpl in H.
  repeat (destruct H as [H | H]; [discriminate |]). exact H.
Qed.

Lemma Route_SubIngredientObject_valid v s :
  Route.SubIngredientObject v = Ok s -> SubIngredient_valid s.
Proof.
  intros H. apply Route_SubIngredientObject_Ok in H.
  destruct H as [kv [_ [_ [_ H]]]]. exact H.
Qed.

(** The transform keeps a non-empty [sub_ingredients] and removes any
    other. *)
Lemma IngredientTransform_sub_ingredients data :
  Ingredient.sub_ingredients (Route.IngredientTransform data)
  = match Ingredient.sub_ingredients data with
    | Some (x :: l) => Some (x :: l)
    | _ => None
    end.
Proof.
  unfold Route.IngredientTransform.
  destruct (Ingredient.sub_ingredients data) as [[| x l] |]; reflexivity.
Qed.

Lemma IngredientTransform_fields data :
  Ingredient.name (Route.IngredientTransform data) = Ingredient.name data
  /\ Ingredient.amount_per_portion_grams (Route.IngredientTransform data)
     = Ingredient.amount_per_portion_grams data.
Proof.
  unfold Route.IngredientTransform.
  destruct (Ingredient.sub_ingredients data) as [[| x l] |]; split; reflexivity.
Qed.

Lemma Route_IngredientSchema_normal v i :
  Route.IngredientSchema v = Ok i -> Ingredient_normal i.
Proof.
  unfold Route.IngredientSchema. intros H. apply transform_Ok in H.
  destruct H as [data [H ->]]. apply Route_IngredientObject_Ok in H.
  destruct H as [kv [_ [_ [_ [Hv Hs]]]]]. split.
  - now rewrite (proj2 (IngredientTransform_fields data)).
  - rewrite IngredientTransform_sub_ingredients.
    destruct (Ingredient.sub_ingredients data) as [[| x l] |]; trivial.
    split; [discriminate |].
    apply optional_Ok in Hs.
    destruct Hs as [[_ [=]] | [y [a [_ [Ha [= <-]]]]]].
    apply array_Ok in Ha. destruct Ha as [l' [_ Ha]].
    eapply Forall2_Forall_right; [| exact Ha].
    intros ? ?. apply Route_SubIngredientObject_valid.
Qed.

Lemma Route_ComponentObject_valid v c :
  Route.ComponentObject v = Ok c -> Component_valid c.
Proof.
  intros H. apply Route_ComponentObject_Ok in H.
  destruct H as [kv [_ H]]. decompose [and] H.
  unfold Component_valid. split_ands; try assumption.
  match goal with
  | Ha : array _ _ = Ok _ |- _ =>
      apply array_Ok in Ha; destruct Ha as [l [_ Ha]];
      eapply Forall2_Forall_right; [| exact Ha]
  end.
  intros ? ?. apply Route_IngredientSchema_normal.
Qed.

Lemma ComponentTransform_normal c :
  Component_valid c -> Component_normal (Route.ComponentTransform c).
Proof.
  intros H. unfold Component_valid in H. decompose [and] H.
  unfold Component_normal, Component_valid, Route.ComponentTransform; simpl.
  split_ands; auto using valid_int_or_zero, valid_number_or_zero,
    settled_or_zero.
  - now rewrite component_type_truthy.
  - now apply or_string_nonempty.
Qed.

Lemma Route_RecipeObject_valid v d :
  Route.RecipeObject v = Ok d -> Recipe_valid d.
Proof.
  intros H. apply Route_RecipeObject_Ok in H.
  destruct H as [kv [_ H]]. decompose [and] H. split; [assumption |].
  match goal with
  | Ha : array Route.ComponentObject _ = Ok _ |- _ =>
      apply array_Ok in Ha; destruct Ha as [l [_ Ha]];
      eapply Forall2_Forall_right; [| exact Ha]
  end.
  intros ? ?. apply Route_ComponentObject_valid.
Qed.

Lemma RecipeTransform_normal d :
  Recipe_valid d -> Recipe_normal (Route.RecipeTransform d).
Proof.
  intros [Hy Hc]. unfold Recipe_normal, Route.RecipeTransform; simpl.
  split_ands.
  - now apply or_string_nonempty.
  - now apply valid_number_or_zero.
  - apply settled_or_zero.
  - rewrite or_array. apply Forall_map.
    eapply Forall_impl; [| exact Hc]. apply ComponentTransform_normal.
Qed.

Lemma Route_normalize_normal j d :
  Route.normalize j = Ok d -> Recipe_normal d.
Proof.
  intros H. apply Route_normalize_Ok in H. destruct H as [data [H ->]].
  apply RecipeTransform_normal. eapply Route_RecipeObject_valid, H.
Qed.

Lemma Forall2_map_right {A B C} (R : A -> B -> Prop) (f : B -> C) l r :
  Forall2 R l r ->
  Forall2 (fun x c => exists b, R x b /\ c = f b) l (map f r).
Proof.
  intros H. induction H as [| x b l r Hx H IH]; simpl; constructor.
  - exists b. now split.
  - exact IH.
Qed.

(** The output components are the validated input components, transformed
    one by one. *)
Lemma Route_normalize_components j d :
  Route.normalize j = Ok d ->
  exists kv comps,
    j = JObj kv
    /\ get "components" kv = Some (JArr comps)
    /\ Forall2 (fun cj c =>
                  exists c0, Route.ComponentObject (Some cj) = Ok c0
                             /\ c = Route.ComponentTransform c0)
         comps (RecipeDocument.components d).
Proof.
  intros H. apply Route_normalize_Ok in H. destruct H as [data [H ->]].
  apply Route_RecipeObject_Ok in H.
  destruct H as [kv [[= ->] [_ [_ [_ [_ Ha]]]]]].
  apply array_Ok in Ha. destruct Ha as [comps [Hg Ha]].
  exists kv, comps. split_ands; trivial.
  unfold Route.RecipeTransform. cbn [RecipeDocument.components].
  rewrite or_array. now apply Forall2_map_right.
Qed.

Lemma Recipe_normal_nonneg d : Recipe_normal d -> Recipe_nonneg d.
Proof.
  intros [_ [Hy [_ Hc]]]. split; [now apply valid_number_ge |].
  eapply Forall_impl; [| exact Hc]. clear. intros c [Hc _].
  unfold Component_valid in Hc. decompose [and] Hc.
  unfold Component_nonneg, valid_int in *.
  split_ands; try (apply valid_number_ge; tauto).
  match goal with
  | Hi : Forall Ingredient_normal _ |- _ =>
      eapply Forall_impl; [| exact Hi]
  end.
  clear. intros i [Ha Hs]. split; [now apply valid_number_ge |].
  intros subs E. rewrite E in Hs. destruct Hs as [_ Hs].
  eapply Forall_impl; [| exact Hs]. intros s. apply valid_number_ge.
Qed.

(* ===================================================================== *)
(** ** Properties of the route's normalizer                               *)
(* ===================================================================== *)



(** C10.  Every component of a document produced by the normalizer has a
    non-empty name: an input component that validates with the empty name
    comes out named "Unknown Component". *)
Theorem component_names_nonempty :
  (forall j d, Route.normalize j = Ok d ->
     Forall (fun c => Component.name c <> "") (RecipeDocument.components d))
  /\ (forall kv comps d,
        Route.normalize (JObj kv) = Ok d ->
        get "components" kv = Some (JArr comps) ->
        Forall2 (fun cj c =>
                   forall ckv, cj = JObj ckv ->
                     get "name" ckv = Some (JStr "") ->
                     Component.name c = "Unknown Component")
          comps (RecipeDocument.components d)).
Proof.
  split.
  - intros j d H. apply Route_normalize_normal in H.
    destruct H as [_ [_ [_ Hc]]].
    eapply Forall_impl; [| exact Hc]. now intros c [_ [Hn _]].
  - intros kv comps d H Hg. apply Route_normalize_components in H.
    destruct H as [kv' [comps' [[= <-] [Hg' H]]]].
    rewrite Hg in Hg'. injection Hg' as <-.
    eapply Forall2_impl; [| exact H]. clear.
    intros cj c [c0 [H0 ->]] ckv -> Hn.
    apply Route_ComponentObject_Ok in H0.
    destruct H0 as [kv [[= <-] [Hn' _]]].
    rewrite Hn in Hn'. injection Hn' as Hn'.
    unfold Route.ComponentTransform; simpl. now rewrite <- Hn'.
Qed.

Lemma component_names_nonempty_witness :
  Route.normalize Samples.unnamed = Ok Samples.unnamed_document
  /\ Forall (fun c => Component.name c <> "")
       (RecipeDocument.components Samples.unnamed_document).
Proof.
  split; [reflexivity |].
  apply (proj1 component_names_nonempty Samples.unnamed). reflexivity.
Defined.

(** What the transform does to [recipe_name]: the output's is never empty,
    an empty source name becomes "Unknown Recipe" and any other name is
    kept. *)
Lemma recipe_name_default :
  (forall j d, Route.normalize j = Ok d -> RecipeDocument.recipe_name d <> "")
  /\ (forall kv d s,
        Route.normalize (JObj kv) = Ok d ->
        get "recipe_name" kv = Some (JStr s) ->
        RecipeDocument.recipe_name d
        = if String.eqb s "" then "Unknown Recipe" else s).
Proof.
  split.
  - intros j d H. apply Route_normalize_normal in H. apply H.
  - intros kv d s H Hs. apply Route_normalize_Ok in H.
    destruct H as [data [H ->]]. apply Route_RecipeObject_Ok in H.
    destruct H as [kv' [[= <-] [Hn _]]]. rewrite Hs in Hn.
    injection Hn as Hn. unfold Route.RecipeTransform; simpl. rewrite <- Hn.
    unfold or_else, truthy, Truthy_string. now destruct (String.eqb s "").
Qed.

(** C7.  A source object without [recipe_name] does not come out with the
    default "Unknown Recipe" that the transform has for it: the schema
    refuses it before the transform runs, and the parse fails. *)
Lemma recipe_name_absent_rejected :
  Route.normalize Samples.nameless = Err invalid_type.
Proof. reflexivity. Qed.

Lemma is_ok_false {A} (r : result A) :
  is_ok r = false <-> forall a, r <> Ok a.
Proof.
  destruct r; simpl; split; try congruence.
  intros H. now destruct (H a).
Qed.

Lemma Forall2_In_left {A B} (R : A -> B -> Prop) l r x :
  Forall2 R l r -> In x l -> exists a, R x a.
Proof.
  intros H. induction H as [| y b l r Hy H IH]; intros Hin; [contradiction |].
  destruct Hin as [<- | Hin]; [now exists b | now apply IH].
Qed.

(** An accepted recipe object has accepted components. *)
Lemma accepted_component kv d comps cj :
  Route.normalize (JObj kv) = Ok d ->
  get "components" kv = Some (JArr comps) -> In cj comps ->
  exists c0, Route.ComponentObject (Some cj) = Ok c0.
Proof.
  intros H Hg Hin. apply Route_normalize_components in H.
  destruct H as [kv' [comps' [[= <-] [Hg' H]]]].
  rewrite Hg in Hg'. injection Hg' as <-.
  destruct (@Forall2_In_left _ _ _ _ _ _ H Hin) as [c [c0 [H0 _]]].
  now exists c0.
Qed.

(** C3.  The [type] of every component of a document produced by the
    normalizer is one of protein, starch, vegetable, sauce.  A source
    component whose [type] is a non-empty string other than these four is
    not given the default: the whole parse fails. *)
Theorem component_type_closed :
  (forall j d, Route.normalize j = Ok d ->
     Forall (fun c => In (Component.type c) component_types)
       (RecipeDocument.components d))
  /\ (forall kv comps ckv t,
        get "components" kv = Some (JArr comps) ->
        In (JObj ckv) comps ->
        get "type" ckv = Some (JStr t) ->
        t <> "" ->
        ~ In t component_types ->
        is_ok (Route.normalize (JObj kv)) = false).
Proof.
  split.
  - intros j d H. apply Route_normalize_normal in H.
    destruct H as [_ [_ [_ Hc]]].
    eapply Forall_impl; [| exact Hc]. now intros c [[Ht _] _].
  - intros kv comps ckv t Hg Hin Hty _ Hnot. apply is_ok_false. intros d H.
    destruct (@accepted_component _ _ _ _ H Hg Hin) as [c0 H0].
    apply Route_ComponentObject_Ok in H0.
    destruct H0 as [kv0 [[= <-] [_ [[Ht Hi] _]]]].
    rewrite Hty in Ht. injection Ht as ->. contradiction.
Qed.

Lemma component_type_closed_witness :
  (Route.normalize Samples.salmon = Ok Samples.salmon_document
   /\ Forall (fun c => In (Component.type c) component_types)
        (RecipeDocument.components Samples.salmon_document))
  /\ is_ok (Route.normalize Samples.dessert) = false.
Proof.
  split.
  - split; [reflexivity |].
    apply (proj1 component_type_closed Samples.salmon). reflexivity.
  - apply (proj2 component_type_closed
             (match Samples.dessert with JObj kv => kv | _ => [] end)
             [Samples.component (JStr "Sponge") (JStr "dessert") []]
             (match Samples.component (JStr "Sponge") (JStr "dessert") [] with
              | JObj kv => kv
              | _ => []
              end)
             "dessert").
    + reflexivity.
    + simpl. left. reflexivity.
    + reflexivity.
    + discriminate.
    + simpl. intros H.
      repeat (destruct H as [H | H]; [discriminate |]). exact H.
Defined.

(** C3, as the claim has it: a component of category "dessert" is not
    normalized to protein; the parse fails. *)
Lemma component_type_invalid_rejected :
  Route.normalize Samples.dessert = Err invalid_enum_value.
Proof. reflexivity. Qed.

(** An accepted component has accepted ingredients, and an accepted
    ingredient accepted sub-ingredients. *)
Lemma accepted_ingredient ckv c ings ij :
  Route.ComponentObject (Some (JObj ckv)) = Ok c ->
  get "ingredients" ckv = Some (JArr ings) -> In ij ings ->
  exists i, Route.IngredientSchema (Some ij) = Ok i.
Proof.
  intros H Hg Hin. apply Route_ComponentObject_Ok in H.
  destruct H as [kv [[= <-] [_ [_ [_ [_ [_ [_ [_ Hi]]]]]]]]].
  apply array_Ok in Hi. destruct Hi as [l [Hl Hi]].
  rewrite Hg in Hl. injection Hl as <-.
  exact (@Forall2_In_left _ _ _ _ _ _ Hi Hin).
Qed.

Lemma accepted_sub_ingredient ikv i subs sj :
  Route.IngredientSchema (Some (JObj ikv)) = Ok i ->
  get "sub_ingredients" ikv = Some (JArr subs) -> In sj subs ->
  exists s, Route.SubIngredientObject (Some sj) = Ok s.
Proof.
  unfold Route.IngredientSchema. intros H Hg Hin. apply transform_Ok in H.
  destruct H as [data [H _]]. apply Route_IngredientObject_Ok in H.
  destruct H as [kv [[= <-] [_ [_ [_ Ho]]]]]. rewrite Hg in Ho.
  apply optional_Ok in Ho. destruct Ho as [[[=] _] | [y [r [[= <-] [Ha _]]]]].
  apply array_Ok in Ha. destruct Ha as [l [[= <-] Ha]].
  exact (@Forall2_In_left _ _ _ _ _ _ Ha Hin).
Qed.

Lemma negative_not_valid x : lt x zero = true -> ~ valid_number x.
Proof. intros H [_ H']. congruence. Qed.

(** C4.  Every numeric field of a document the normalizer produces is
    [>= 0]: [yield_count], the times, temperature and portion weight of
    each component, the amount of each ingredient and sub-ingredient.  A
    negative source value is not repaired: wherever it stands, in
    [yield_count], in a numeric field of a component, or in the amount of
    an ingredient or of a sub-ingredient, the parse fails and there is no
    document. *)
Theorem numeric_fields_nonnegative :
  (forall j d, Route.normalize j = Ok d -> Recipe_nonneg d)
  /\ (forall kv x,
        get "yield_count" kv = Some (JNum x) -> lt x zero = true ->
        is_ok (Route.normalize (JObj kv)) = false)
  /\ (forall kv comps ckv,
        get "components" kv = Some (JArr comps) -> In (JObj ckv) comps ->
        (forall k x,
           In k ["prep_time_minutes"; "cook_time_minutes";
                 "cook_temp_fahrenheit"; "portion_weight_grams"] ->
           get k ckv = Some (JNum x) -> lt x zero = true ->
           is_ok (Route.normalize (JObj kv)) = false)
        /\ (forall ings ikv,
              get "ingredients" ckv = Some (JArr ings) ->
              In (JObj ikv) ings ->
              (forall x,
                 get "amount_per_portion_grams" ikv = Some (JNum x) ->
                 lt x zero = true ->
                 is_ok (Route.normalize (JObj kv)) = false)
              /\ (forall subs skv x,
                    get "sub_ingredients" ikv = Some (JArr subs) ->
                    In (JObj skv) subs ->
                    get "amount_per_portion_grams" skv = Some (JNum x) ->
                    lt x zero = true ->
                    is_ok (Route.normalize (JObj kv)) = false))).
Proof.
  split; [| split].
  - intros j d H. apply Recipe_normal_nonneg. eapply Route_normalize_normal, H.
  - intros kv x Hg Hx. apply is_ok_false. intros d H.
    apply Route_normalize_Ok in H. destruct H as [data [H _]].
    apply Route_RecipeObject_Ok in H.
    destruct H as [kv' [[= <-] [_ [_ [[Hy Hv] _]]]]].
    rewrite Hg in Hy. injection Hy as ->. now apply (@negative_not_valid _ Hx).
  - intros kv comps ckv Hg Hin. split.
    + intros k x Hk Hgk Hx. apply is_ok_false. intros d H.
      destruct (@accepted_component _ _ _ _ H Hg Hin) as [c0 H0].
      apply Route_ComponentObject_Ok in H0.
      destruct H0 as [kv0 [[= <-] [_ [_ [[Hp [Hpv _]] [[Hc [Hcv _]]
        [[Hf [Hfv _]] [_ [[Hw Hwv] _]]]]]]]]].
      simpl in Hk.
      destruct Hk as [<- | [<- | [<- | [<- | []]]]];
        match goal with
        | Hs : get ?k _ = Some (JNum (_ c0)) |- _ =>
            match type of Hgk with
            | get k _ = _ => rewrite Hgk in Hs; injection Hs as ->
            end
        end;
        now apply (@negative_not_valid _ Hx).
    + intros ings ikv Hgi Hini. split.
      * intros x Hga Hx. apply is_ok_false. intros d H.
        destruct (@accepted_component _ _ _ _ H Hg Hin) as [c0 H0].
        destruct (@accepted_ingredient _ _ _ _ H0 Hgi Hini) as [i Hi].
        unfold Route.IngredientSchema in Hi. apply transform_Ok in Hi.
        destruct Hi as [data [Hi _]]. apply Route_IngredientObject_Ok in Hi.
        destruct Hi as [kv0 [[= <-] [_ [Ha [Hv _]]]]].
        rewrite Hga in Ha. injection Ha as ->.
        now apply (@negative_not_valid _ Hx).
      * intros subs skv x Hgs Hins Hga Hx. apply is_ok_false. intros d H.
        destruct (@accepted_component _ _ _ _ H Hg Hin) as [c0 H0].
        destruct (@accepted_ingredient _ _ _ _ H0 Hgi Hini) as [i Hi].
        destruct (@accepted_sub_ingredient _ _ _ _ Hi Hgs Hins) as [su Hs].
        apply Route_SubIngredientObject_Ok in Hs.
        destruct Hs as [kv0 [[= <-] [_ [Ha Hv]]]].
        rewrite Hga in Ha. injection Ha as ->.
        now apply (@negative_not_valid _ Hx).
Qed.

Lemma numeric_fields_nonnegative_witness :
  (Route.normalize Samples.salmon = Ok Samples.salmon_document
   /\ Recipe_nonneg Samples.salmon_document)
  /\ is_ok (Route.normalize Samples.soup_negative) = false.
Proof.
  split.
  - split; [reflexivity |].
    apply (proj1 numeric_fields_nonnegative Samples.salmon). reflexivity.
  - apply (proj1 (proj2 numeric_fields_nonnegative)
             (match Samples.soup_negative with JObj kv => kv | _ => [] end)
             (of_Z (-1))); reflexivity.
Defined.

(** C4, as the claim has it: a negative [yield_count] does not come out as
    a number [>= 0]; the parse fails and no document comes out at all. *)
Lemma negative_yield_rejected :
  Route.normalize Samples.soup_negative = Err too_small.
Proof. reflexivity. Qed.

(* ===================================================================== *)
(** ** Normalizing a normalized document                                  *)
(* ===================================================================== *)

Arguments Route.SubIngredientObject : simpl never.
Arguments Route.IngredientSchema : simpl never.
Arguments Route.ComponentObject : simpl never.

Lemma parse_elements_map {A} (s : schema A) (f : A -> json) (P : A -> Prop) l :
  (forall a, P a -> s (Some (f a)) = Ok a) ->
  Forall P l -> parse_elements s (map f l) = Ok l.
Proof.
  intros Hs H. apply parse_elements_Ok.
  induction H as [| a l Ha H IH]; simpl; constructor; auto.
Qed.

Lemma map_fixed {A} (f : A -> A) (P : A -> Prop) l :
  (forall a, P a -> f a = a) -> Forall P l -> map f l = l.
Proof.
  intros Hf H. induction H as [| a l Ha H IH]; simpl; [reflexivity |].
  now rewrite Hf, IH.
Qed.

Lemma SubIngredient_reparse s :
  SubIngredient_valid s ->
  Route.SubIngredientObject (Some (SubIngredient.to_json s)) = Ok s.
Proof.
  intros H. apply Route_SubIngredientObject_Ok. eexists.
  split; [reflexivity |]. split_ands; solve [reflexivity | exact H].
Qed.

Lemma Ingredient_reparse i :
  Ingredient_normal i ->
  Route.IngredientSchema (Some (Ingredient.to_json i)) = Ok i.
Proof.
  destruct i as [n a subs]. intros [Ha Hs]. simpl in Ha, Hs.
  unfold Route.IngredientSchema. apply transform_Ok.
  exists (Ingredient.mk n a subs). split.
  - apply Route_IngredientObject_Ok. eexists. split; [reflexivity |].
    split_ands; try solve [reflexivity | exact Ha].
    destruct subs as [l |]; simpl; [| reflexivity].
    rewrite (parse_elements_map Route.SubIngredientObject
               SubIngredient.to_json SubIngredient_reparse (proj2 Hs)).
    reflexivity.
  - destruct subs as [[| x l] |]; trivial. now destruct Hs.
Qed.

Lemma Component_reparse c :
  Component_normal c ->
  Route.ComponentObject (Some (Component.to_json c)) = Ok c.
Proof.
  intros [Hv _]. unfold Component_valid in Hv. decompose [and] Hv.
  apply Route_ComponentObject_Ok. eexists. split; [reflexivity |].
  split_ands; try solve [reflexivity | assumption].
  simpl. apply parse_elements_map with (P := Ingredient_normal);
    [apply Ingredient_reparse | assumption].
Qed.

Lemma Component_settled c :
  Component_normal c -> Route.ComponentTransform c = c.
Proof.
  intros [Hv [Hn [H1 [H2 [H3 H4]]]]]. unfold settled in *.
  destruct Hv as [Ht _]. destruct c; simpl in *.
  unfold Route.ComponentTransform; simpl.
  rewrite H1, H2, H3, H4, or_empty_string, or_array.
  rewrite (component_type_truthy _ Ht), (or_string_keep _ Hn). reflexivity.
Qed.

Lemma strings_reparse l : parse_elements string_ (map JStr l) = Ok l.
Proof.
  apply parse_elements_map with (P := fun _ => True); [reflexivity |].
  apply Forall_forall. trivial.
Qed.

Lemma Recipe_reparse d :
  Recipe_normal d -> Route.RecipeObject (Some (RecipeDocument.to_json d)) = Ok d.
Proof.
  intros [_ [Hy [_ Hc]]].
  apply Route_RecipeObject_Ok. eexists. split; [reflexivity |].
  split_ands; try solve [reflexivity | assumption]; simpl.
  - apply strings_reparse.
  - apply parse_elements_map with (P := Component_normal);
      [apply Component_reparse | assumption].
Qed.

Lemma Recipe_settled d : Recipe_normal d -> Route.RecipeTransform d = d.
Proof.
  intros [Hn [_ [Hy Hc]]]. unfold settled in Hy. destruct d; simpl in *.
  unfold Route.RecipeTransform; simpl.
  rewrite Hy, or_empty_string, !or_array, (or_string_keep _ Hn).
  f_equal. apply map_fixed with (P := Component_normal);
    [apply Component_settled | assumption].
Qed.

(** C5.  Normalization is idempotent: the document the normalizer produces,
    given back to the normalizer, comes out as the same document. *)
Theorem normalize_idempotent (j : json) (d : RecipeDocument.t) :
  Route.normalize j = Ok d ->
  Route.normalize (RecipeDocument.to_json d) = Ok d.
Proof.
  intros H. apply Route_normalize_normal in H.
  apply Route_normalize_Ok. exists d. split.
  - now apply Recipe_reparse.
  - symmetry. now apply Recipe_settled.
Qed.

Lemma normalize_idempotent_witness :
  Route.normalize Samples.unnamed = Ok Samples.unnamed_document
  /\ Route.normalize (RecipeDocument.to_json Samples.unnamed_document)
     = Ok Samples.unnamed_document.
Proof.
  split; [reflexivity |].
  apply (normalize_idempotent Samples.unnamed). reflexivity.
Defined.

(* ===================================================================== *)
(** ** Which values the route's schema accepts                            *)
(* ===================================================================== *)

Lemma Forall_exists_Forall2 {A B} (R : A -> B -> Prop) l :
  Forall (fun x => exists a, R x a) l <-> exists r, Forall2 R l r.
Proof.
  split.
  - intros H. induction H as [| x l [a Ha] H [r IH]].
    + exists []. constructor.
    + exists (a :: r). now constructor.
  - intros [r H]. induction H; constructor; eauto.
Qed.

Lemma is_array_of_iff {A} (s : schema A) (P : json -> Prop) v :
  (forall x, P x <-> exists a, s (Some x) = Ok a) ->
  is_array_of P v <-> exists r, array s v = Ok r.
Proof.
  intros HP. unfold is_array_of. split.
  - intros [l [-> H]].
    assert (H' : Forall (fun x => exists a, s (Some x) = Ok a) l).
    { eapply Forall_impl; [| exact H]. intros x. apply HP. }
    apply Forall_exists_Forall2 in H'. destruct H' as [r H'].
    exists r. apply array_Ok. now exists l.
  - intros [r H]. apply array_Ok in H. destruct H as [l [-> H]].
    exists l. split; [reflexivity |].
    assert (H' : Forall (fun x => exists a, s (Some x) = Ok a) l).
    { apply Forall_exists_Forall2. now exists r. }
    eapply Forall_impl; [| exact H']. intros x. apply HP.
Qed.

Lemma conforms_sub_ingredient_iff x :
  conforms_sub_ingredient x
  <-> exists s, Route.SubIngredientObject (Some x) = Ok s.
Proof.
  split.
  - intros [kv [-> [[n Hn] [a [Ha Hv]]]]]. exists (SubIngredient.mk n a).
    apply Route_SubIngredientObject_Ok. exists kv. simpl. tauto.
  - intros [s H]. apply Route_SubIngredientObject_Ok in H.
    destruct H as [kv [[= ->] [Hn [Ha Hv]]]]. exists kv.
    unfold is_string_value, is_nonneg_number. eauto 6.
Qed.

Lemma conforms_ingredient_iff x :
  conforms_ingredient x <-> exists i, Route.IngredientSchema (Some x) = Ok i.
Proof.
  unfold Route.IngredientSchema. split.
  - intros [kv [-> [[n Hn] [[a [Ha Hv]] Hs]]]].
    assert (Ho : exists o, optional (array Route.SubIngredientObject)
                             (get "sub_ingredients" kv) = Ok o).
    { destruct Hs as [-> | Hs]; [now exists None |].
      apply (is_array_of_iff Route.SubIngredientObject) in Hs;
        [| apply conforms_sub_ingredient_iff].
      destruct Hs as [r Hr]. exists (Some r). apply optional_Ok. right.
      destruct (get "sub_ingredients" kv) as [y |]; [| discriminate].
      now exists y, r. }
    destruct Ho as [o Ho].
    exists (Route.IngredientTransform (Ingredient.mk n a o)).
    apply transform_Ok. exists (Ingredient.mk n a o). split; [| reflexivity].
    apply Route_IngredientObject_Ok. exists kv. simpl. tauto.
  - intros [i H]. apply transform_Ok in H. destruct H as [data [H _]].
    apply Route_IngredientObject_Ok in H.
    destruct H as [kv [[= ->] [Hn [Ha [Hv Hs]]]]]. exists kv.
    unfold is_string_value, is_nonneg_number. split_ands; eauto.
    apply optional_Ok in Hs. destruct Hs as [[Hs _] | [y [r [Hy [Hs _]]]]];
      [now left | right].
    rewrite Hy. apply (is_array_of_iff Route.SubIngredientObject);
      [apply conforms_sub_ingredient_iff | now exists r].
Qed.

Lemma conforms_component_iff x :
  conforms_component x <-> exists c, Route.ComponentObject (Some x) = Ok c.
Proof.
  split.
  - intros [kv [-> [[n Hn] [[t [Ht Hi]] [[p [Hp Hpv]] [[ct [Hct Hctv]]
      [[tf [Htf Htfv]] [[m Hm] [[w [Hw Hwv]] Hing]]]]]]]]].
    apply (is_array_of_iff Route.IngredientSchema) in Hing;
      [| apply conforms_ingredient_iff].
    destruct Hing as [r Hr].
    exists (Component.mk n t p ct tf m w r).
    apply Route_ComponentObject_Ok. exists kv. simpl. tauto.
  - intros [c H]. apply Route_ComponentObject_Ok in H.
    destruct H as [kv [[= ->] H]]. decompose [and] H. exists kv.
    unfold is_string_value, is_nonneg_number, is_nonneg_int,
      is_component_type.
    split_ands; eauto.
    apply (is_array_of_iff Route.IngredientSchema);
      [apply conforms_ingredient_iff | eauto].
Qed.

Lemma string_value_iff x :
  is_string_value (Some x) <-> exists s, string_ (Some x) = Ok s.
Proof.
  unfold is_string_value. split; intros [s H]; exists s; now apply string_Ok.
Qed.

Lemma conforms_recipe_iff j :
  conforms_recipe j <-> exists d, Route.normalize j = Ok d.
Proof.
  split.
  - intros [kv [-> [[n Hn] [[ch Hch] [[y [Hy Hyv]] [Hal Hc]]]]]].
    apply (is_array_of_iff string_) in Hal; [| apply string_value_iff].
    apply (is_array_of_iff Route.ComponentObject) in Hc;
      [| apply conforms_component_iff].
    destruct Hal as [al Hal]. destruct Hc as [cs Hc].
    exists (Route.RecipeTransform (RecipeDocument.mk n ch y al cs)).
    apply Route_normalize_Ok. eexists. split; [| reflexivity].
    apply Route_RecipeObject_Ok. exists kv. simpl. tauto.
  - intros [d H]. apply Route_normalize_Ok in H. destruct H as [data [H _]].
    apply Route_RecipeObject_Ok in H.
    destruct H as [kv [[= ->] H]]. decompose [and] H. exists kv.
    unfold is_string_value, is_nonneg_number. split_ands; eauto.
    + apply (is_array_of_iff string_); [apply string_value_iff | eauto].
    + apply (is_array_of_iff Route.ComponentObject);
        [apply conforms_component_iff | eauto].
Qed.

Lemma has_null_map {A} (f : A -> json) l :
  (forall a, has_null (f a) = false) -> existsb has_null (map f l) = false.
Proof.
  intros H. induction l as [| a l IH]; simpl; [reflexivity |].
  now rewrite H, IH.
Qed.

Lemma SubIngredient_no_null s : has_null (SubIngredient.to_json s) = false.
Proof. reflexivity. Qed.

Lemma Ingredient_no_null i : has_null (Ingredient.to_json i) = false.
Proof.
  destruct i as [n a [l |]]; simpl; [| reflexivity].
  now rewrite (has_null_map _ l SubIngredient_no_null).
Qed.

Lemma Component_no_null c : has_null (Component.to_json c) = false.
Proof.
  destruct c; simpl. now rewrite (has_null_map _ _ Ingredient_no_null).
Qed.

Lemma Recipe_no_null d : has_null (RecipeDocument.to_json d) = false.
Proof.
  destruct d; simpl. rewrite (has_null_map _ _ Component_no_null).
  now rewrite has_null_map.
Qed.

(** Normalization succeeds exactly on the JSON objects that have every
    declared field with its declared type: the five top-level fields, the
    eight fields of each component (with [type] one of the four categories
    and the numbers non-negative), [name] and [amount_per_portion_grams] of
    each ingredient and sub-ingredient. *)
Lemma normalize_accepts_iff_conforms (j : json) :
  conforms_recipe j <-> exists d, Route.normalize j = Ok d.
Proof. apply conforms_recipe_iff. Qed.

(** C2.  The object [{"recipe_name":"Soup","components":[]}] is not
    completed with the defaults the transform has for [chef], [yield_count]
    and [allergens]: the schema refuses it before the transform runs, and
    normalization fails instead of yielding the document of the claim.  The
    schema of extractRecipe.ts does fill in a missing [chef], which route.ts
    refuses. *)
Lemma normalize_missing_fields_rejected :
  Route.normalize Samples.soup_minimal = Err invalid_type
  /\ Route.normalize Samples.soup_minimal <> Ok Samples.soup_document
  /\ Route.normalize Samples.chefless = Err invalid_type
  /\ ExtractRecipe.normalize Samples.chefless = Ok Samples.chefless_document.
Proof. split_ands; try reflexivity. discriminate. Qed.

(* ===================================================================== *)
(** ** The prompt builder                                                 *)
(* ===================================================================== *)

Lemma list_ascii_of_append (a b : string) :
  list_ascii_of_string (a ++ b)%string
  = list_ascii_of_string a ++ list_ascii_of_string b.
Proof.
  induction a as [| c a IH]; simpl; [reflexivity | now rewrite IH].
Qed.

Lemma append_cancel_head (s a b : string) :
  (s ++ a)%string = (s ++ b)%string -> a = b.
Proof.
  induction s as [| c s IH]; simpl; intros H; [exact H |].
  injection H as H. now apply IH.
Qed.

Lemma append_cancel_tail (t a b : string) :
  (a ++ t)%string = (b ++ t)%string -> a = b.
Proof.
  intros H. apply (f_equal list_ascii_of_string) in H.
  rewrite !list_ascii_of_append in H. apply app_inv_tail in H.
  apply (f_equal string_of_list_ascii) in H.
  now rewrite !string_of_list_ascii_of_string in H.
Qed.

Lemma string_append_assoc (a b c : string) :
  ((a ++ b) ++ c)%string = (a ++ b ++ c)%string.
Proof.
  induction a as [| x a IH]; simpl; [reflexivity | now rewrite IH].
Qed.

(** The payload, written out. *)
Lemma build_payload_eq (format_instructions recipeText : string) :
  Route.build_payload format_instructions recipeText
  = inr [("system", Route.systemPrompt);
         ("human",
          (Route.human_head ++ format_instructions ++ Route.human_middle
             ++ recipeText ++ Route.human_tail)%string)].
Proof. reflexivity. Qed.

(** C8.  The prompt builder is deterministic and lossless.  For every pair
    of format instructions and recipe text it returns one payload, fixed by
    the pair; the human message of that payload contains the recipe text as
    it is, between a prefix and a suffix that do not depend on it; and two
    recipe texts that give the same payload are the same text. *)
Theorem prompt_deterministic_and_verbatim (format_instructions recipeText : string) :
  (exists payload,
     Route.build_payload format_instructions recipeText = inr payload
     /\ forall payload',
          Route.build_payload format_instructions recipeText = inr payload' ->
          payload' = payload)
  /\ (exists system before after,
        Route.build_payload format_instructions recipeText
        = inr [system; ("human", (before ++ recipeText ++ after)%string)]
        /\ after = Route.human_tail
        /\ before = (Route.human_head ++ format_instructions
                       ++ Route.human_middle)%string)
  /\ (forall recipeText',
        Route.build_payload format_instructions recipeText'
        = Route.build_payload format_instructions recipeText ->
        recipeText' = recipeText).
Proof.
  split_ands.
  - eexists. split; [apply build_payload_eq |].
    intros payload' H. rewrite build_payload_eq in H. now injection H.
  - exists ("system", Route.systemPrompt),
      (Route.human_head ++ format_instructions ++ Route.human_middle)%string,
      Route.human_tail.
    split_ands; try reflexivity. rewrite build_payload_eq.
    now rewrite !string_append_assoc.
  - intros recipeText' H. rewrite !build_payload_eq in H.
    assert (E : (Route.human_head ++ format_instructions
                   ++ Route.human_middle ++ recipeText'
                   ++ Route.human_tail)%string
                = (Route.human_head ++ format_instructions
                     ++ Route.human_middle ++ recipeText
                     ++ Route.human_tail)%string) by congruence.
    apply (append_cancel_head Route.human_head) in E.
    apply (append_cancel_head format_instructions) in E.
    apply (append_cancel_head Route.human_middle) in E.
    now apply append_cancel_tail in E.
Qed.

Lemma prompt_deterministic_and_verbatim_witness :
  Route.build_payload "FORMAT" "2 cups flour"
  = inr [("system", Route.systemPrompt);
         ("human",
          (Route.human_head ++ "FORMAT" ++ Route.human_middle
             ++ "2 cups flour" ++ Route.human_tail)%string)].
Proof.
  destruct (proj1 (prompt_deterministic_and_verbatim "FORMAT" "2 cups flour"))
    as [payload [E H]].
  rewrite E. f_equal. symmetry. apply H. reflexivity.
Defined.

(* ===================================================================== *)
(** ** The handler                                                        *)
(* ===================================================================== *)

Section HandlerFacts.

Variable json_of_text : string -> option json.
Variable getFormatInstructions : string.
Variable model : Route.Payload -> option string.

Let POST := Route.POST json_of_text getFormatInstructions model.
Let chain := Route.chain json_of_text getFormatInstructions model.

(** A body that is an object without a usable [recipeText] (missing, not a
    string, or the empty string) is answered with 400. *)
Lemma POST_invalid_input kv :
  (forall text, get "recipeText" kv = Some (JStr text) -> text = "") ->
  POST {| Route.request_json := Some (JObj kv) |} = invalid_input.
Proof.
  intros H. unfold POST, Route.POST, Route.POST_try. simpl.
  destruct (get "recipeText" kv) as [[ | b | x | s | l | o] |];
    cbn [Route.destructure_recipeText is_string negb];
    rewrite ?Bool.orb_true_r; try reflexivity.
  rewrite (H s eq_refl). reflexivity.
Qed.

(** A body whose [recipeText] is a non-empty string goes through the chain:
    200 with the document, or the one generic 500 whatever was thrown. *)
Lemma POST_valid_input kv text :
  get "recipeText" kv = Some (JStr text) -> text <> "" ->
  POST {| Route.request_json := Some (JObj kv) |}
  = match chain text with
    | inr d => Route.NextResponse_json (Route.DocumentBody d) None
    | inl _ => generic_failure
    end.
Proof.
  intros H Hne. unfold POST, chain, Route.POST, Route.POST_try. simpl.
  rewrite H. simpl.
  change (truthy (Some (JStr text))) with (negb (String.eqb text "")).
  destruct (String.eqb_spec text "") as [E | _]; [contradiction |]. simpl.
  destruct (Route.chain json_of_text getFormatInstructions model text);
    reflexivity.
Qed.

(** Every failure after the input check gets the same response: a rejected
    model call, a completion that is not JSON, a completion that fails the
    schema. *)
Lemma POST_failure_opaque kv text e :
  get "recipeText" kv = Some (JStr text) -> text <> "" ->
  chain text = inl e ->
  POST {| Route.request_json := Some (JObj kv) |} = generic_failure.
Proof.
  intros H Hne He. rewrite (POST_valid_input _ H Hne). now rewrite He.
Qed.

(** C6.  A request whose body is the JSON value [null], or is not JSON at
    all, has no [recipeText]; it is answered with the generic 500 and not
    with 400, since reading the body throws inside the [try] block before
    the input check is reached. *)
Theorem POST_null_body_is_500 :
  POST {| Route.request_json := Some JNull |} = generic_failure
  /\ POST {| Route.request_json := None |} = generic_failure
  /\ Route.status generic_failure = 500.
Proof. repeat split. Qed.

End HandlerFacts.

(* ===================================================================== *)
(** ** The two modules side by side                                       *)
(* ===================================================================== *)

Lemma Forall2_agree {A B C D} (R1 : A -> B -> Prop) (R2 : A -> C -> Prop)
    (f : B -> D) (g : C -> D) l r1 r2 :
  (forall x b c, R1 x b -> R2 x c -> f b = g c) ->
  Forall2 R1 l r1 -> Forall2 R2 l r2 -> map f r1 = map g r2.
Proof.
  intros Hf H1. revert r2.
  induction H1 as [| x b l r1 Hb H1 IH]; intros r2 H2; inversion H2; subst;
    simpl; [reflexivity |].
  f_equal; eauto.
Qed.

Lemma ExtractRecipe_IngredientObject_Ok v i :
  ExtractRecipe.IngredientObject v = Ok i
  <-> exists kv, v = Some (JObj kv)
      /\ get "name" kv = Some (JStr (Ingredient.name i))
      /\ get "amount_per_portion_grams" kv
         = Some (JNum (Ingredient.amount_per_portion_grams i))
      /\ valid_number (Ingredient.amount_per_portion_grams i)
      /\ Ingredient.sub_ingredients i = None.
Proof.
  unfold ExtractRecipe.IngredientObject. split.
  - intros H. zod_inv. subst. simpl. eauto 7.
  - intros [kv [-> [Hn [Ha [Hv Hs]]]]]. apply object_Ok. exists kv.
    split; [reflexivity |]. zod_build. destruct i; simpl in *. now subst.
Qed.

Lemma ingredients_agree x i1 i2 :
  Route.IngredientSchema (Some x) = Ok i1 ->
  ExtractRecipe.IngredientObject (Some x) = Ok i2 ->
  Ingredient_erase i1 = i2.
Proof.
  unfold Route.IngredientSchema. intros H1 H2.
  apply transform_Ok in H1. destruct H1 as [data [H1 ->]].
  apply Route_IngredientObject_Ok in H1.
  destruct H1 as [kv [[= ->] [Hn [Ha _]]]].
  apply ExtractRecipe_IngredientObject_Ok in H2.
  destruct H2 as [kv' [[= <-] [Hn' [Ha' [_ Hs]]]]].
  unfold Ingredient_erase.
  destruct (IngredientTransform_fields data) as [-> ->].
  destruct i2; simpl in *. congruence.
Qed.

Lemma ExtractRecipe_ComponentObject_inv v c :
  ExtractRecipe.ComponentObject v = Ok c ->
  exists kv, v = Some (JObj kv)
    /\ get "name" kv = Some (JStr (Component.name c))
    /\ 1 <= String.length (Component.name c)
    /\ get "type" kv = Some (JStr (Component.type c))
    /\ get "prep_time_minutes" kv
       = Some (JNum (Component.prep_time_minutes c))
    /\ get "cook_time_minutes" kv
       = Some (JNum (Component.cook_time_minutes c))
    /\ (forall x, get "cook_temp_fahrenheit" kv = Some x ->
                  x = JNum (Component.cook_temp_fahrenheit c))
    /\ (forall x, get "cook_method" kv = Some x ->
                  x = JStr (Component.cook_method c))
    /\ get "portion_weight_grams" kv
       = Some (JNum (Component.portion_weight_grams c))
    /\ array ExtractRecipe.IngredientObject (get "ingredients" kv)
       = Ok (Component.ingredients c).
Proof.
  unfold ExtractRecipe.ComponentObject. intros H. zod_inv. subst. simpl.
  exists x. split_ands; try solve [reflexivity | assumption].
  - intros y Hy.
    match goal with
    | Hd : default _ (optional _) _ = Ok _ |- _ =>
        rewrite Hy, default_Some in Hd; apply optional_Ok in Hd;
        destruct Hd as [[[=] _] | [y' [a [[= <-] [Hd ->]]]]];
        apply nonneg_int_Ok in Hd; destruct Hd as [[= ->] _]
    end.
    reflexivity.
  - intros y Hy.
    match goal with
    | Hd : default _ string_ _ = Ok _ |- _ =>
        rewrite Hy, default_Some in Hd; apply string_Ok in Hd;
        injection Hd as ->
    end.
    reflexivity.
Qed.

Lemma components_agree x c1 c2 :
  Route.ComponentObject (Some x) = Ok c1 ->
  ExtractRecipe.ComponentObject (Some x) = Ok c2 ->
  Component_erase c1 = c2.
Proof.
  intros H1 H2. apply Route_ComponentObject_Ok in H1.
  destruct H1 as [kv [[= ->] [Hn [[Ht _] [[Hp _] [[Hc _] [[Hf _] [Hm
    [[Hw _] Hi]]]]]]]]].
  apply ExtractRecipe_ComponentObject_inv in H2.
  destruct H2 as [kv' [[= <-] [Hn' [_ [Ht' [Hp' [Hc' [Hf' [Hm' [Hw' Hi']]]]]]]]]].
  apply Hf' in Hf. apply Hm' in Hm.
  apply array_Ok in Hi. destruct Hi as [l [Hl Hi]].
  apply array_Ok in Hi'. destruct Hi' as [l' [Hl' Hi']].
  rewrite Hl in Hl'. injection Hl' as <-.
  assert (E : map Ingredient_erase (Component.ingredients c1)
              = map (fun i => i) (Component.ingredients c2)).
  { eapply Forall2_agree; [| exact Hi | exact Hi'].
    intros y b c. apply ingredients_agree. }
  rewrite map_id in E. unfold Component_erase. rewrite E.
  destruct c2; simpl in *. congruence.
Qed.

Lemma ExtractRecipe_normalize_inv j d :
  ExtractRecipe.normalize j = Ok d ->
  exists kv, j = JObj kv
    /\ get "recipe_name" kv = Some (JStr (RecipeDocument.recipe_name d))
    /\ 1 <= String.length (RecipeDocument.recipe_name d)
    /\ (forall x, get "chef" kv = Some x -> x = JStr (RecipeDocument.chef d))
    /\ get "yield_count" kv = Some (JNum (RecipeDocument.yield_count d))
    /\ array string_ (get "allergens" kv) = Ok (RecipeDocument.allergens d)
    /\ array ExtractRecipe.ComponentObject (get "components" kv)
       = Ok (RecipeDocument.components d).
Proof.
  unfold ExtractRecipe.normalize, ExtractRecipe.RecipeSchema. intros H.
  zod_inv.
  match goal with E : Some j = Some _ |- _ => injection E as -> end.
  subst. simpl. exists x. split_ands; try solve [reflexivity | assumption].
  intros y Hy.
  match goal with
  | Hd : default _ string_ _ = Ok _ |- _ =>
      rewrite Hy, default_Some in Hd; apply string_Ok in Hd;
      injection Hd as ->
  end.
  reflexivity.
Qed.

Lemma recipes_agree j data d2 :
  Route.RecipeObject (Some j) = Ok data ->
  ExtractRecipe.normalize j = Ok d2 ->
  erase_sub_ingredients data = d2.
Proof.
  intros H1 H2. apply Route_RecipeObject_Ok in H1.
  destruct H1 as [kv [[= ->] [Hn [Hc [[Hy _] [Hal Hcs]]]]]].
  apply ExtractRecipe_normalize_inv in H2.
  destruct H2 as [kv' [[= <-] [Hn' [_ [Hc' [Hy' [Hal' Hcs']]]]]]].
  apply Hc' in Hc.
  apply array_Ok in Hcs. destruct Hcs as [l [Hl Hcs]].
  apply array_Ok in Hcs'. destruct Hcs' as [l' [Hl' Hcs']].
  rewrite Hl in Hl'. injection Hl' as <-.
  assert (E : map Component_erase (RecipeDocument.components data)
              = map (fun c => c) (RecipeDocument.components d2)).
  { eapply Forall2_agree; [| exact Hcs | exact Hcs'].
    intros y b c. apply components_agree. }
  rewrite map_id in E. unfold erase_sub_ingredients. rewrite E.
  destruct d2; simpl in *. congruence.
Qed.

Lemma erase_ComponentTransform c :
  Component_erase (Route.ComponentTransform c)
  = Route.ComponentTransform (Component_erase c).
Proof. reflexivity. Qed.

Lemma erase_RecipeTransform d :
  erase_sub_ingredients (Route.RecipeTransform d)
  = Route.RecipeTransform (erase_sub_ingredients d).
Proof.
  unfold erase_sub_ingredients, Route.RecipeTransform; simpl.
  rewrite !or_array, !map_map. reflexivity.
Qed.

Lemma Route_parser_inr json_of_text text d :
  Route.parser json_of_text text = inr d
  <-> exists j, json_of_text text = Some j /\ Route.normalize j = Ok d.
Proof.
  unfold Route.parser, Route.normalize. split.
  - destruct (json_of_text text) as [j |]; [| discriminate].
    destruct (Route.RecipeSchema (Some j)) eqn:E; [| discriminate].
    intros [= <-]. now exists j.
  - intros [j [-> H]]. now rewrite H.
Qed.

Lemma ExtractRecipe_parser_inr json_of_text text d :
  ExtractRecipe.parser json_of_text text = inr d
  <-> exists j, json_of_text text = Some j /\ ExtractRecipe.normalize j = Ok d.
Proof.
  unfold ExtractRecipe.parser, ExtractRecipe.normalize. split.
  - destruct (json_of_text text) as [j |]; [| discriminate].
    destruct (ExtractRecipe.RecipeSchema (Some j)) eqn:E; [| discriminate].
    intros [= <-]. now exists j.
  - intros [j [-> H]]. now rewrite H.
Qed.

Lemma normalize_agree j d1 d2 :
  Route.normalize j = Ok d1 -> ExtractRecipe.normalize j = Ok d2 ->
  erase_sub_ingredients d1 = Route.RecipeTransform d2.
Proof.
  intros H1 H2. apply Route_normalize_Ok in H1.
  destruct H1 as [data [H1 ->]]. rewrite erase_RecipeTransform.
  f_equal. eapply recipes_agree; eassumption.
Qed.

(** The two parse-and-normalize stages share the text-to-JSON step, so a
    completion that is not JSON is refused by both.  On a completion both
    accept, the documents agree up to [sub_ingredients] and up to the sign
    of a zero: the route's document without its [sub_ingredients] is the
    extractRecipe.ts document after the route's default step, and the two
    have the same [recipe_name], [chef] and [allergens]. *)
Lemma modules_agree_up_to_sub_ingredients
    (json_of_text : string -> option json) (text : string) :
  (json_of_text text = None ->
     Route.parser json_of_text text = inl Route.OutputParserException
     /\ ExtractRecipe.parser json_of_text text
        = inl Route.OutputParserException)
  /\ (forall d1 d2,
        Route.parser json_of_text text = inr d1 ->
        ExtractRecipe.parser json_of_text text = inr d2 ->
        erase_sub_ingredients d1 = Route.RecipeTransform d2
        /\ RecipeDocument.recipe_name d1 = RecipeDocument.recipe_name d2
        /\ RecipeDocument.chef d1 = RecipeDocument.chef d2
        /\ RecipeDocument.allergens d1 = RecipeDocument.allergens d2).
Proof.
  split.
  - intros H. unfold Route.parser, ExtractRecipe.parser. now rewrite H.
  - intros d1 d2 H1 H2.
    apply Route_parser_inr in H1. destruct H1 as [j [Hj H1]].
    apply ExtractRecipe_parser_inr in H2. destruct H2 as [j' [Hj' H2]].
    rewrite Hj in Hj'. injection Hj' as <-.
    pose proof (@normalize_agree _ _ _ H1 H2) as E.
    split; [exact E |].
    apply ExtractRecipe_normalize_inv in H2.
    destruct H2 as [kv [_ [_ [Hlen _]]]].
    assert (Hne : RecipeDocument.recipe_name d2 <> "").
    { intros E0. rewrite E0 in Hlen. simpl in Hlen. lia. }
    apply (f_equal RecipeDocument.recipe_name) in E as En.
    apply (f_equal RecipeDocument.chef) in E as Ec.
    apply (f_equal RecipeDocument.allergens) in E as Ea.
    simpl in En, Ec, Ea.
    rewrite or_string_keep in En by exact Hne.
    rewrite or_empty_string in Ec. rewrite or_array in Ea. auto.
Qed.

Lemma modules_agree_up_to_sub_ingredients_witness :
  erase_sub_ingredients Samples.salmon_document
  = Route.RecipeTransform (erase_sub_ingredients Samples.salmon_document).
Proof.
  apply (proj2 (modules_agree_up_to_sub_ingredients
                  (fun _ => Some Samples.salmon) "{}")); reflexivity.
Defined.

(** C9.  The two modules are not one pipeline.  The route accepts an empty
    [recipe_name] that extractRecipe.ts refuses; extractRecipe.ts accepts an
    object without [chef] that the route refuses; and on a value both
    accept the documents differ, extractRecipe.ts dropping the
    [sub_ingredients] that the route keeps. *)
Lemma modules_disagree :
  (Route.normalize Samples.unnamed = Ok Samples.unnamed_document
   /\ ExtractRecipe.normalize Samples.unnamed = Err too_small)
  /\ (Route.normalize Samples.chefless = Err invalid_type
      /\ ExtractRecipe.normalize Samples.chefless
         = Ok Samples.chefless_document)
  /\ (Route.normalize Samples.salmon = Ok Samples.salmon_document
      /\ ExtractRecipe.normalize Samples.salmon
         = Ok (erase_sub_ingredients Samples.salmon_document)
      /\ erase_sub_ingredients Samples.salmon_document
         <> Samples.salmon_document).
Proof.
  repeat split; try reflexivity. discriminate.
Qed.

(* ===================================================================== *)
(** ** The page: text extraction                                          *)
(* ===================================================================== *)

Section PageText.

Variable isWhiteSpace : ascii -> bool.

#[local] Abbreviation trimStart := (Page.trimStart isWhiteSpace).
#[local] Abbreviation trimEnd := (Page.trimEnd isWhiteSpace).
#[local] Abbreviation trim := (Page.trim isWhiteSpace).
#[local] Abbreviation pageText := (Page.pageText isWhiteSpace).
#[local] Abbreviation addPage := (Page.addPage isWhiteSpace).
#[local] Abbreviation wblank := (blank isWhiteSpace).

Lemma trimEnd_cons c s :
  trimEnd (String c s)
  = match trimEnd s with
    | EmptyString => if isWhiteSpace c then EmptyString
                     else String c EmptyString
    | kept => String c kept
    end.
Proof. reflexivity. Qed.

Lemma blank_append a b : wblank (a ++ b) = wblank a && wblank b.
Proof.
  induction a as [| c a IH]; simpl; [reflexivity |].
  now rewrite IH, Bool.andb_assoc.
Qed.

Lemma trimEnd_empty s : trimEnd s = "" <-> wblank s = true.
Proof.
  induction s as [| c s IH]; simpl; [tauto |].
  destruct (trimEnd s) as [| k kept].
  - destruct (isWhiteSpace c); simpl.
    + now rewrite <- IH.
    + split; discriminate.
  - split; [discriminate |]. intros H. apply Bool.andb_true_iff in H.
    destruct H as [_ H]. apply IH in H. discriminate.
Qed.

Lemma trimStart_empty s : trimStart s = "" <-> wblank s = true.
Proof.
  induction s as [| c s IH]; simpl; [tauto |].
  destruct (isWhiteSpace c); simpl; [exact IH |].
  split; discriminate.
Qed.

Lemma blank_trimStart s : wblank (trimStart s) = wblank s.
Proof.
  induction s as [| c s IH]; simpl; [reflexivity |].
  destruct (isWhiteSpace c) eqn:E; simpl; [exact IH |].
  now rewrite E.
Qed.

(** A string trims to the empty string exactly when it is all white
    space. *)
Lemma trim_empty s : trim s = "" <-> wblank s = true.
Proof.
  unfold Page.trim.
  rewrite trimEnd_empty. now rewrite blank_trimStart.
Qed.

Lemma truthy_trim s : truthy (trim s) = negb (wblank s).
Proof.
  destruct (wblank s) eqn:E; simpl.
  - apply trim_empty in E. now rewrite E.
  - destruct (trim s) eqn:T; [| reflexivity].
    apply trim_empty in T. congruence.
Qed.

Lemma trimEnd_idem s : trimEnd (trimEnd s) = trimEnd s.
Proof.
  induction s as [| c s IH]; [reflexivity |].
  rewrite (trimEnd_cons c s).
  destruct (trimEnd s) as [| k kept] eqn:E.
  - destruct (isWhiteSpace c) eqn:W; [reflexivity |].
    rewrite trimEnd_cons. simpl. now rewrite W.
  - rewrite trimEnd_cons. now rewrite IH.
Qed.

Lemma trimStart_head c s : isWhiteSpace c = false ->
  trimStart (String c s) = String c s.
Proof. intros H. simpl. now rewrite H. Qed.

Lemma trimEnd_head c s : isWhiteSpace c = false ->
  exists kept, trimEnd (String c s) = String c kept.
Proof.
  intros H. simpl. destruct (trimEnd s) as [| k kept].
  - rewrite H. now exists "".
  - now exists (String k kept).
Qed.

Lemma trimStart_shape s :
  trimStart s = ""
  \/ exists c rest, trimStart s = String c rest /\ isWhiteSpace c = false.
Proof.
  induction s as [| c s IH]; simpl; [now left |].
  destruct (isWhiteSpace c) eqn:E; [exact IH |].
  right. now exists c, s.
Qed.

(** Trimming twice is trimming once. *)
Lemma trim_idem s : trim (trim s) = trim s.
Proof.
  unfold Page.trim.
  destruct (trimStart_shape s) as [-> | [c [rest [-> Hc]]]]; [reflexivity |].
  destruct (trimEnd_head rest Hc) as [kept E]. rewrite E.
  rewrite (trimStart_head _ Hc). rewrite <- E. apply trimEnd_idem.
Qed.

Lemma blank_concat sep l :
  Forall (fun x => wblank x = false) l -> l <> [] ->
  wblank (String.concat sep l) = false.
Proof.
  intros H Hne. destruct H as [| x l Hx H]; [congruence |].
  simpl. destruct l; [exact Hx |]. now rewrite blank_append, Hx.
Qed.

(** The text of a page is wblank exactly when no item of it has text. *)
Lemma blank_pageText items :
  wblank (pageText items)
  = negb (existsb (fun item => truthy (trim (Page.item_text item))) items).
Proof.
  unfold Page.pageText.
  set (keep := fun text => Nat.ltb 0 (String.length (trim text))).
  assert (Hk : forall t, keep t = truthy (trim t)).
  { intros t. unfold keep. now destruct (trim t). }
  destruct (existsb (fun item => truthy (trim (Page.item_text item))) items)
    eqn:E; simpl.
  - apply blank_concat.
    + apply Forall_forall. intros x Hx. apply filter_In in Hx.
      destruct Hx as [_ Hx]. rewrite Hk, truthy_trim in Hx.
      now destruct (wblank x).
    + apply existsb_exists in E. destruct E as [item [Hin Ht]].
      intros Hnil.
      assert (Hf : In (Page.item_text item) (filter keep (map Page.item_text items))).
      { apply filter_In. split; [now apply in_map | now rewrite Hk]. }
      now rewrite Hnil in Hf.
  - replace (filter keep (map Page.item_text items)) with (@nil string);
      [reflexivity |].
    symmetry. induction items as [| item items IH]; [reflexivity |].
    simpl in E. apply Bool.orb_false_iff in E. destruct E as [E1 E2].
    simpl. rewrite Hk, E1. now apply IH.
Qed.

Lemma blank_addPage fullText items :
  wblank (addPage fullText items)
  = wblank fullText
    && negb (existsb (fun item => truthy (trim (Page.item_text item))) items).
Proof.
  unfold Page.addPage.
  rewrite truthy_trim, <- blank_pageText.
  destruct (wblank (pageText items)) eqn:E; cbn [negb].
  - now rewrite Bool.andb_true_r.
  - rewrite !blank_append, E. cbn [andb]. now rewrite Bool.andb_false_r.
Qed.

Lemma blank_fold pages fullText :
  wblank (fold_left addPage pages fullText)
  = wblank fullText
    && negb (existsb
               (existsb (fun item => truthy (trim (Page.item_text item))))
               pages).
Proof.
  revert fullText. induction pages as [| items pages IH]; intros fullText;
    simpl; [now rewrite Bool.andb_true_r |].
  rewrite IH, blank_addPage, Bool.negb_orb. now rewrite Bool.andb_assoc.
Qed.

End PageText.

Section PageExtract.

Variable isWhiteSpace : ascii -> bool.

#[local] Abbreviation trim' := (Page.trim isWhiteSpace).
#[local] Abbreviation extractTextFromPDF' :=
  (Page.extractTextFromPDF isWhiteSpace).

Lemma extractText_try_inr file text :
  Page.extractText_try isWhiteSpace file = inr text ->
  exists pages,
    file = inr pages
    /\ has_text isWhiteSpace pages = true
    /\ text = trim' (fold_left (Page.addPage isWhiteSpace) pages "").
Proof.
  unfold Page.extractText_try. destruct file as [t | pages]; [discriminate |].
  rewrite truthy_trim, blank_fold. simpl. fold (has_text isWhiteSpace pages).
  destruct (has_text isWhiteSpace pages) eqn:Ht; simpl; [| discriminate].
  intros [= <-]. now exists pages.
Qed.

Lemma trimmed_text_facts pages :
  has_text isWhiteSpace pages = true ->
  trim' (fold_left (Page.addPage isWhiteSpace) pages "") <> ""
  /\ truthy (trim' (trim' (fold_left (Page.addPage isWhiteSpace) pages "")))
     = true.
Proof.
  intros Ht.
  assert (Hne : trim' (fold_left (Page.addPage isWhiteSpace) pages "") <> "").
  { intros H. apply trim_empty in H. rewrite blank_fold in H. simpl in H.
    fold (has_text isWhiteSpace pages) in H. rewrite Ht in H. discriminate. }
  split; [exact Hne |]. rewrite trim_idem. now apply truthy_string_nonempty.
Qed.

(** What the page goes on with when the text has been extracted. *)
Lemma extracted_text_truthy loaded file text :
  Page.extractTextFromPDF isWhiteSpace loaded file = inr text ->
  text <> "" /\ truthy (trim' text) = true.
Proof.
  unfold Page.extractTextFromPDF. destruct loaded; simpl; [| discriminate].
  destruct (Page.extractText_try isWhiteSpace file) as [t | text'] eqn:E;
    [discriminate |].
  intros [= <-]. apply extractText_try_inr in E.
  destruct E as [pages [_ [Ht ->]]]. now apply trimmed_text_facts.
Qed.

Lemma has_text_extracts pages :
  has_text isWhiteSpace pages = true ->
  exists text,
    Page.extractTextFromPDF isWhiteSpace true (inr pages) = inr text.
Proof.
  intros Ht. unfold Page.extractTextFromPDF, Page.extractText_try.
  cbn [negb]. rewrite truthy_trim, blank_fold. simpl blank. cbn [andb].
  fold (has_text isWhiteSpace pages). rewrite Ht. cbn [negb].
  eexists. reflexivity.
Qed.

(** X1.  The text [extractTextFromPDF] returns is never empty and is
    already trimmed, so the check [if (!recipeText.trim())] that
    [processRecipe] makes on it cannot fire. *)
Theorem extracted_text_nonempty_trimmed loaded file text :
  Page.extractTextFromPDF isWhiteSpace loaded file = inr text ->
  text <> ""
  /\ Page.trim isWhiteSpace text = text
  /\ truthy (Page.trim isWhiteSpace text) = true.
Proof.
  unfold Page.extractTextFromPDF. destruct loaded; simpl; [| discriminate].
  destruct (Page.extractText_try isWhiteSpace file) as [t | text'] eqn:E;
    [discriminate |].
  intros [= <-]. apply extractText_try_inr in E.
  destruct E as [pages [_ [Ht ->]]].
  assert (Hb : blank isWhiteSpace
                 (fold_left (Page.addPage isWhiteSpace) pages "") = false).
  { rewrite blank_fold. simpl. fold (has_text isWhiteSpace pages).
    now rewrite Ht. }
  assert (Hne : trim' (fold_left (Page.addPage isWhiteSpace) pages "") <> "").
  { intros H. apply trim_empty in H. congruence. }
  split; [exact Hne |]. rewrite trim_idem. split; [reflexivity |].
  now apply truthy_string_nonempty.
Qed.

(** X2.  With the library loaded and a file pdf.js can read, text comes
    back exactly when some item of some page is not blank.  Otherwise the
    "No text content found" error is thrown inside the [try] block, caught
    by the function's own [catch] and thrown again behind the "Failed to
    extract text from PDF: " prefix. *)
Theorem extractText_iff_has_text pages :
  if has_text isWhiteSpace pages
  then exists text,
         Page.extractTextFromPDF isWhiteSpace true (inr pages) = inr text
  else Page.extractTextFromPDF isWhiteSpace true (inr pages)
       = inl (Page.Error
                "Failed to extract text from PDF: No text content found in PDF. The PDF might be image-based or corrupted.").
Proof.
  unfold Page.extractTextFromPDF, Page.extractText_try. cbn [negb].
  rewrite truthy_trim, blank_fold. simpl blank. cbn [andb].
  fold (has_text isWhiteSpace pages).
  destruct (has_text isWhiteSpace pages); cbn [negb].
  - eexists. reflexivity.
  - reflexivity.
Qed.

Lemma pageText_filter items :
  Page.pageText isWhiteSpace
    (filter (fun item => truthy (trim' (Page.item_text item))) items)
  = Page.pageText isWhiteSpace items.
Proof.
  unfold Page.pageText. f_equal.
  induction items as [| item items IH]; [reflexivity |]. simpl.
  destruct (trim' (Page.item_text item)) eqn:E; simpl.
  - exact IH.
  - rewrite E. simpl. now rewrite IH.
Qed.

Lemma addPage_nil fullText : Page.addPage isWhiteSpace fullText [] = fullText.
Proof. reflexivity. Qed.

Lemma addPage_filter fullText items :
  Page.addPage isWhiteSpace fullText
    (filter (fun item => truthy (trim' (Page.item_text item))) items)
  = Page.addPage isWhiteSpace fullText items.
Proof. unfold Page.addPage. now rewrite pageText_filter. Qed.

Lemma fold_strip_pages pages fullText :
  fold_left (Page.addPage isWhiteSpace) (strip_pages isWhiteSpace pages)
    fullText
  = fold_left (Page.addPage isWhiteSpace) pages fullText.
Proof.
  revert fullText. induction pages as [| items pages IH]; intros fullText;
    [reflexivity |].
  unfold strip_pages in *. simpl. rewrite <- (addPage_filter fullText items).
  destruct (filter _ items) as [| item kept]; simpl.
  - apply IH.
  - apply IH.
Qed.

(** X3.  Items without text (no [str], an empty or an all-white-space
    [str]) and pages without such items leave no trace: the function
    returns, or throws, the same with and without them. *)
Theorem extractText_ignores_blank loaded pages :
  Page.extractTextFromPDF isWhiteSpace loaded
    (inr (strip_pages isWhiteSpace pages))
  = Page.extractTextFromPDF isWhiteSpace loaded (inr pages).
Proof.
  unfold Page.extractTextFromPDF, Page.extractText_try.
  now rewrite fold_strip_pages.
Qed.

End PageExtract.

Lemma extracted_text_nonempty_trimmed_witness :
  Page.extractTextFromPDF Samples.white_space true Samples.pdf
  = inr (String.concat Page.newline ["Soup "; ""; "2 cups water"])
  /\ Page.trim Samples.white_space
       (String.concat Page.newline ["Soup "; ""; "2 cups water"])
     = String.concat Page.newline ["Soup "; ""; "2 cups water"].
Proof.
  split; [reflexivity |].
  apply (extracted_text_nonempty_trimmed Samples.white_space true Samples.pdf).
  reflexivity.
Defined.

(* ===================================================================== *)
(** ** The handler, all cases                                             *)
(* ===================================================================== *)

Section HandlerCases.

Variable json_of_text : string -> option json.
Variable getFormatInstructions : string.
Variable model : Route.Payload -> option string.

#[local] Abbreviation POST' :=
  (Route.POST json_of_text getFormatInstructions model).
#[local] Abbreviation chain' :=
  (Route.chain json_of_text getFormatInstructions model).

Lemma chain_inr_normal text d : chain' text = inr d -> Recipe_normal d.
Proof.
  unfold Route.chain. rewrite build_payload_eq.
  destruct (model _) as [completion |]; [| discriminate].
  intros H. apply Route_parser_inr in H. destruct H as [j [_ H]].
  eapply Route_normalize_normal, H.
Qed.

(** The three shapes of an answer. *)
Lemma POST_cases request :
  POST' request = invalid_input
  \/ POST' request = generic_failure
  \/ exists text d,
       chain' text = inr d
       /\ POST' request = Route.NextResponse_json (Route.DocumentBody d) None.
Proof.
  unfold Route.POST, Route.POST_try.
  destruct (Route.request_json request) as [value |]; [| now right; left].
  destruct (Route.destructure_recipeText value) as [e | recipeText];
    [now right; left |].
  destruct (negb (truthy recipeText) || negb (is_string recipeText));
    [now left |].
  destruct recipeText as [[ | | | text | | ] |]; try (now right; left).
  destruct (chain' text) as [e | d] eqn:E; [now right; left |].
  right; right. now exists text, d.
Qed.

Lemma json_nested_ind (P : json -> Prop) :
  P JNull -> (forall b, P (JBool b)) -> (forall x, P (JNum x)) ->
  (forall s, P (JStr s)) ->
  (forall l, Forall P l -> P (JArr l)) ->
  (forall kv, Forall (fun p => P (snd p)) kv -> P (JObj kv)) ->
  forall v, P v.
Proof.
  intros Hnull Hbool Hnum Hstr Harr Hobj. fix IH 1.
  intros [ | b | x | t | l | kv];
    [exact Hnull | apply Hbool | apply Hnum | apply Hstr | |].
  - apply Harr.
    exact ((fix all (l : list json) : Forall P l :=
              match l with
              | [] => Forall_nil P
              | v :: rest => Forall_cons v (IH v) (all rest)
              end) l).
  - apply Hobj.
    exact ((fix all (kv : list (string * json))
              : Forall (fun p => P (snd p)) kv :=
              match kv with
              | [] => Forall_nil _
              | p :: rest => Forall_cons p (IH (snd p)) (all rest)
              end) kv).
Qed.

(** Sending a value as JSON puts a [null] wherever it held an infinity or
    [NaN], and nowhere else. *)
Lemma has_null_roundtrip v :
  has_null (JSON_roundtrip v) = has_null v || has_nonfinite v.
Proof.
  induction v as [ | b | x | t | l IH | kv IH] using json_nested_ind;
    try reflexivity.
  - now destruct x.
  - simpl. induction IH as [| v l Hv _ IHl]; [reflexivity |]. simpl.
    rewrite Hv, IHl.
    destruct (has_null v), (has_nonfinite v), (existsb has_null l);
      reflexivity.
  - simpl. induction IH as [| p kv Hp _ IHl]; [reflexivity |]. simpl.
    rewrite Hp, IHl.
    destruct (has_null (snd p)), (has_nonfinite (snd p)),
      (existsb (fun q => has_null (snd q)) kv); reflexivity.
Qed.

(** X4.  The handler answers with status 200, 400 or 500 and nothing else.
    A 200 answer carries, as the JSON text it was sent as, a document that
    satisfies the schema's output invariants; this body holds a [null]
    exactly when the document holds an infinite number.  Every other answer
    carries one of the two fixed error messages. *)
Theorem POST_status_and_body request :
  (Route.status (Route.POST json_of_text getFormatInstructions model request)
   = 200
   /\ exists d,
        Recipe_normal d
        /\ Route.body
             (Route.POST json_of_text getFormatInstructions model request)
           = JSON_roundtrip (RecipeDocument.to_json d)
        /\ has_null
             (Route.body
                (Route.POST json_of_text getFormatInstructions model request))
           = has_nonfinite (RecipeDocument.to_json d))
  \/ (Route.status
        (Route.POST json_of_text getFormatInstructions model request) = 400
      /\ Route.body
           (Route.POST json_of_text getFormatInstructions model request)
         = Route.ErrorBody "Recipe text is required")
  \/ (Route.status
        (Route.POST json_of_text getFormatInstructions model request) = 500
      /\ Route.body
           (Route.POST json_of_text getFormatInstructions model request)
         = Route.ErrorBody "Failed to extract recipe data").
Proof.
  destruct (POST_cases request) as [-> | [-> | [text [d [Hc ->]]]]].
  - right; left. now split.
  - right; right. now split.
  - left. split; [reflexivity |]. exists d.
    split; [eapply chain_inr_normal, Hc |]. split; [reflexivity |].
    unfold Route.NextResponse_json, Route.DocumentBody.
    cbn [Route.body]. now rewrite has_null_roundtrip, Recipe_no_null.
Qed.


End HandlerCases.


(* ===================================================================== *)
(** ** The page: processing a recipe                                      *)
(* ===================================================================== *)

Section PageProcess.

Variable isWhiteSpace : ascii -> bool.
Variable render : json -> string.
Variable toString : json -> string.
Variable null_property_message : string.

(** X6.  [processRecipe] keeps the selected file and the loaded library.
    Without a file it only sets the error "Please select a PDF file
    first".  With a file it always ends with [isProcessing] false, and
    then either the text was extracted and the response to it was ok, the
    error is cleared and [jsonResult] is the rendering of that response's
    body; or an error is set and [jsonResult] is left as it was, so that a
    result shown before stays on screen beside the error. *)
Theorem processRecipe_outcome
    (fetch : Route.NextRequest -> Page.Thrown + Route.NextResponse)
    (s : Page.State) :
  let s' := Page.processRecipe isWhiteSpace render toString
              null_property_message fetch s in
  Page.pdfFile s' = Page.pdfFile s
  /\ Page.pdfjsLib s' = Page.pdfjsLib s
  /\ (Page.pdfFile s = None ->
        Page.error s' = Some "Please select a PDF file first"
        /\ Page.jsonResult s' = Page.jsonResult s
        /\ Page.isProcessing s' = Page.isProcessing s)
  /\ (forall file, Page.pdfFile s = Some file ->
        Page.isProcessing s' = false
        /\ ((exists text response,
               Page.extractTextFromPDF isWhiteSpace (Page.pdfjsLib s) file
               = inr text
               /\ fetch (Page.request_of text) = inr response
               /\ Page.ok response = true
               /\ Page.error s' = None
               /\ Page.jsonResult s' = render (Route.body response))
            \/ (exists message,
                  Page.error s' = Some message
                  /\ Page.jsonResult s' = Page.jsonResult s))).
Proof.
  unfold Page.processRecipe. destruct (Page.pdfFile s) as [file |] eqn:E.
  - split_ands; try reflexivity.
    + destruct (Page.processRecipe_try _ _ _ _ _ _ file); reflexivity.
    + destruct (Page.processRecipe_try _ _ _ _ _ _ file); reflexivity.
    + discriminate.
    + intros file' [= <-]. unfold Page.processRecipe_try.
      destruct (Page.extractTextFromPDF isWhiteSpace (Page.pdfjsLib s) file)
        as [thrown | text] eqn:Hx;
        [split; [reflexivity | right; eexists; now split] |].
      destruct (extracted_text_truthy _ _ _ Hx) as [_ Htr].
      rewrite Htr. cbn [negb].
      destruct (fetch (Page.request_of text)) as [thrown | response] eqn:Hf;
        [split; [reflexivity | right; eexists; now split] |].
      destruct (Page.ok response) eqn:Hok; cbn [negb].
      * split; [reflexivity |]. left. exists text, response. now split_ands.
      * split; [reflexivity | right; eexists; now split].
  - split_ands; try reflexivity; [now intros _ | discriminate].
Qed.

Variable json_of_text : string -> option json.
Variable getFormatInstructions : string.
Variable model : Route.Payload -> option string.

(** The page talking to the route. *)
Let fetch (request : Route.NextRequest) : Page.Thrown + Route.NextResponse :=
  inr (Route.POST json_of_text getFormatInstructions model request).

(** X7.  End to end, with the route as the server: for a file with text
    and the library loaded, the request the page sends is never answered
    400.  Either the page shows no error and the rendering of what the
    route sent, the JSON form of a document that satisfies the schema's
    output invariants, or it shows the error "Failed to extract recipe
    data" and keeps the previous [jsonResult]. *)
Theorem page_with_route (s : Page.State) pages :
  Page.pdfFile s = Some (inr pages) ->
  Page.pdfjsLib s = true ->
  has_text isWhiteSpace pages = true ->
  let s' := Page.processRecipe isWhiteSpace render toString
              null_property_message fetch s in
  (exists d, Recipe_normal d
             /\ Page.jsonResult s'
                = render (JSON_roundtrip (RecipeDocument.to_json d))
             /\ Page.error s' = None)
  \/ (Page.error s' = Some "Failed to extract recipe data"
      /\ Page.jsonResult s' = Page.jsonResult s).
Proof.
  intros Hf Hl Ht. unfold Page.processRecipe, Page.processRecipe_try.
  rewrite Hf, Hl.
  destruct (has_text_extracts isWhiteSpace pages Ht) as [text Hx].
  rewrite Hx.
  destruct (extracted_text_truthy _ _ _ Hx) as [Hne Htr].
  rewrite Htr. cbn [negb]. unfold fetch, Page.request_of.
  rewrite (POST_valid_input json_of_text getFormatInstructions model
             [("recipeText", JStr text)] (text := text) eq_refl Hne).
  destruct (Route.chain json_of_text getFormatInstructions model text)
    as [e | d] eqn:Hc.
  - right. now split.
  - left. exists d. split_ands; try reflexivity.
    eapply chain_inr_normal, Hc.
Qed.

End PageProcess.

Lemma page_with_route_witness :
  let s := {| Page.pdfFile := Some Samples.pdf; Page.jsonResult := "old";
              Page.isProcessing := false; Page.error := None;
              Page.pdfjsLib := true |} in
  let s' := Page.processRecipe Samples.white_space (fun _ => "new")
              (fun _ => "") ""
              (fun request =>
                 inr (Route.POST (fun _ => None) "" (fun _ => None) request))
              s in
  Page.error s' = Some "Failed to extract recipe data"
  /\ Page.jsonResult s' = "old".
Proof.
  intros s s'.
  destruct (page_with_route Samples.white_space (fun _ => "new")
              (fun _ => "") ""
              (fun _ => None) "" (fun _ => None) s
              (pages := match Samples.pdf with inr p => p | inl _ => [] end)
              eq_refl eq_refl eq_refl) as [[d [_ [_ H]]] | H].
  - discriminate H.
  - exact H.
Defined.

Lemma processRecipe_outcome_witness :
  let s := {| Page.pdfFile := Some Samples.pdf;
              Page.jsonResult := "old"; Page.isProcessing := true;
              Page.error := Some "earlier"; Page.pdfjsLib := true |} in
  let s' := Page.processRecipe Samples.white_space
              (fun body => if has_null body then "null" else "new")
              (fun _ => "") ""
              (fun _ => inr (Route.NextResponse_json (JArr []) None)) s in
  Page.isProcessing s' = false
  /\ Page.error s' = None
  /\ Page.jsonResult s' = "new".
Proof.
  intros s s'.
  destruct (proj2 (proj2 (proj2
              (processRecipe_outcome Samples.white_space
                 (fun body => if has_null body then "null" else "new")
                 (fun _ => "") ""
                 (fun _ => inr (Route.NextResponse_json (JArr []) None)) s)))
              Samples.pdf eq_refl)
    as [Hp [[text [response [_ [Hf [_ [He Hj]]]]]] | [message [He _]]]].
  - injection Hf as <-. now split_ands.
  - discriminate He.
Defined.

(* ===================================================================== *)
(** ** More on the prompt and on the route's schema                       *)
(* ===================================================================== *)

(** X8.  The payload does not tell where the format instructions end and
    the recipe text begins: text that contains the words between the two
    slots can be moved from one slot to the other without changing the
    payload. *)
Theorem payload_delimiter_collision (a b c : string) :
  Route.build_payload (a ++ Route.human_middle ++ b)%string c
  = Route.build_payload a (b ++ Route.human_middle ++ c)%string.
Proof.
  rewrite !build_payload_eq. now rewrite !string_append_assoc.
Qed.

Lemma strings_of_parse l r :
  Forall2 (fun x a => string_ (Some x) = Ok a) l r -> l = map JStr r.
Proof.
  intros H. induction H as [| x a l r Hx H IH]; [reflexivity |].
  apply string_Ok in Hx. injection Hx as ->. simpl. now rewrite IH.
Qed.

Lemma Forall2_impl_l {A B} (R S : A -> B -> Prop) l r :
  (forall x a, R x a -> S x a) -> Forall2 R l r -> Forall2 S l r.
Proof. intros HRS H. induction H; constructor; auto. Qed.

(** X9.  Normalization neither adds, drops nor reorders anything: the
    output has the input's [chef], its allergens, and its components one
    for one, each with the input's [type] and [cook_method] and with its
    ingredients one for one under their input [name] and
    [amount_per_portion_grams]. *)
Theorem normalize_preserves kv d :
  Route.normalize (JObj kv) = Ok d ->
  get "chef" kv = Some (JStr (RecipeDocument.chef d))
  /\ get "allergens" kv
     = Some (JArr (map JStr (RecipeDocument.allergens d)))
  /\ exists comps,
       get "components" kv = Some (JArr comps)
       /\ Forall2
            (fun cj c =>
               exists ckv ings,
                 cj = JObj ckv
                 /\ get "type" ckv = Some (JStr (Component.type c))
                 /\ get "cook_method" ckv
                    = Some (JStr (Component.cook_method c))
                 /\ get "ingredients" ckv = Some (JArr ings)
                 /\ Forall2
                      (fun ij i =>
                         exists ikv,
                           ij = JObj ikv
                           /\ get "name" ikv
                              = Some (JStr (Ingredient.name i))
                           /\ get "amount_per_portion_grams" ikv
                              = Some (JNum
                                        (Ingredient.amount_per_portion_grams i)))
                      ings (Component.ingredients c))
            comps (RecipeDocument.components d).
Proof.
  intros H. pose proof (@Route_normalize_components _ _ H) as Hc.
  apply Route_normalize_Ok in H. destruct H as [data [H ->]].
  apply Route_RecipeObject_Ok in H.
  destruct H as [kv' [[= <-] [_ [Hch [_ [Hal _]]]]]].
  unfold Route.RecipeTransform.
  cbn [RecipeDocument.chef RecipeDocument.allergens].
  rewrite or_empty_string, or_array. split; [exact Hch |]. split.
  - apply array_Ok in Hal. destruct Hal as [l [-> Hal]].
    now rewrite (@strings_of_parse _ _ Hal).
  - destruct Hc as [kv' [comps [[= <-] [Hg Hc]]]]. exists comps.
    split; [exact Hg |]. eapply Forall2_impl_l; [| exact Hc]. clear.
    intros cj c [c0 [H0 ->]]. apply Route_ComponentObject_Ok in H0.
    destruct H0 as [ckv [[= ->] [_ [[Ht Hin] [_ [_ [_ [Hm [_ Hi]]]]]]]]].
    apply array_Ok in Hi. destruct Hi as [ings [Hg Hi]].
    exists ckv, ings. unfold Route.ComponentTransform.
    cbn [Component.type Component.cook_method Component.ingredients].
    rewrite (component_type_truthy _ Hin), or_empty_string, or_array.
    split_ands; trivial. eapply Forall2_impl_l; [| exact Hi]. clear.
    intros ij i H. unfold Route.IngredientSchema in H.
    apply transform_Ok in H. destruct H as [data [H ->]].
    apply Route_IngredientObject_Ok in H.
    destruct H as [ikv [[= ->] [Hn [Ha _]]]]. exists ikv.
    destruct (IngredientTransform_fields data) as [-> ->]. now split_ands.
Qed.

Lemma normalize_preserves_witness :
  get "chef" (match Samples.salmon with JObj kv => kv | _ => [] end)
  = Some (JStr (RecipeDocument.chef Samples.salmon_document)).
Proof.
  apply (normalize_preserves
           (match Samples.salmon with JObj kv => kv | _ => [] end)
           (d := Samples.salmon_document)).
  reflexivity.
Defined.

(** X10.  The three fields declared [.int()] are integers in every
    document the normalizer produces. *)
Theorem integer_fields_are_integers j d :
  Route.normalize j = Ok d ->
  Forall (fun c =>
            isInteger (Component.prep_time_minutes c) = true
            /\ isInteger (Component.cook_time_minutes c) = true
            /\ isInteger (Component.cook_temp_fahrenheit c) = true)
    (RecipeDocument.components d).
Proof.
  intros H. apply Route_normalize_normal in H. destruct H as [_ [_ [_ Hc]]].
  eapply Forall_impl; [| exact Hc]. clear.
  intros c [[_ [[_ H1] [[_ H2] [[_ H3] _]]]] _]. now split_ands.
Qed.

Lemma integer_fields_are_integers_witness :
  Forall (fun c =>
            isInteger (Component.prep_time_minutes c) = true
            /\ isInteger (Component.cook_time_minutes c) = true
            /\ isInteger (Component.cook_temp_fahrenheit c) = true)
    (RecipeDocument.components Samples.salmon_document).
Proof.
  apply (integer_fields_are_integers Samples.salmon). reflexivity.
Defined.

Lemma get_other k k' v kv : k' <> k -> get k' ((k, v) :: kv) = get k' kv.
Proof.
  intros H. simpl. destruct (String.eqb_spec k' k); [contradiction |].
  reflexivity.
Qed.

Ltac not_in_keys H :=
  repeat match goal with
  | |- context [get ?k' ((?k, _) :: _)] =>
      rewrite (@get_other k k');
      [| let E := fresh in intros E; apply H; rewrite <- E; simpl; tauto]
  end.

(** X11.  Keys the schemas do not declare are stripped wherever they
    occur: an extra property on the recipe, on a component, on an
    ingredient or on a sub-ingredient changes neither whether the value
    is accepted nor the document. *)
Theorem undeclared_keys_ignored k v kv :
  (~ In k ["recipe_name"; "chef"; "yield_count"; "allergens"; "components"] ->
     Route.normalize (JObj ((k, v) :: kv)) = Route.normalize (JObj kv))
  /\ (~ In k ["name"; "type"; "prep_time_minutes"; "cook_time_minutes";
              "cook_temp_fahrenheit"; "cook_method"; "portion_weight_grams";
              "ingredients"] ->
        Route.ComponentObject (Some (JObj ((k, v) :: kv)))
        = Route.ComponentObject (Some (JObj kv)))
  /\ (~ In k ["name"; "amount_per_portion_grams"; "sub_ingredients"] ->
        Route.IngredientSchema (Some (JObj ((k, v) :: kv)))
        = Route.IngredientSchema (Some (JObj kv)))
  /\ (~ In k ["name"; "amount_per_portion_grams"] ->
        Route.SubIngredientObject (Some (JObj ((k, v) :: kv)))
        = Route.SubIngredientObject (Some (JObj kv))).
Proof.
  split_ands; intros H.
  - unfold Route.normalize, Route.RecipeSchema, transform, Route.RecipeObject,
      object. now not_in_keys H.
  - unfold Route.ComponentObject, object. now not_in_keys H.
  - unfold Route.IngredientSchema, transform, Route.IngredientObject, object.
    now not_in_keys H.
  - unfold Route.SubIngredientObject, object. now not_in_keys H.
Qed.

Lemma undeclared_keys_ignored_witness :
  Route.SubIngredientObject
    (Some (JObj [("unit", JStr "g"); ("name", JStr "Panko");
                 ("amount_per_portion_grams", JNum (of_Z 12))]))
  = Route.SubIngredientObject (Some Samples.panko).
Proof.
  apply (proj2 (proj2 (proj2
           (undeclared_keys_ignored "unit" (JStr "g")
              [("name", JStr "Panko");
               ("amount_per_portion_grams", JNum (of_Z 12))])))).
  simpl. intros [H | [H | H]]; try discriminate H. exact H.
Defined.

(* ===================================================================== *)
(** ** The schema of extractRecipe.ts                                     *)
(* ===================================================================== *)

Lemma min1_nonempty s : 1 <= String.length s <-> s <> "".
Proof.
  destruct s; simpl; split; intros H; try congruence; lia.
Qed.

Lemma default_string_Ok v s :
  default (JStr "") string_ v = Ok s
  <-> (v = None /\ s = "") \/ v = Some (JStr s).
Proof.
  destruct v as [x |].
  - rewrite default_Some, string_Ok.
    split; [now right | now intros [[[=] _] | H]].
  - rewrite default_None. split.
    + intros [= <-]. now left.
    + now intros [[_ ->] | [=]].
Qed.

Lemma default_int_Ok v o :
  default (JNum zero) (optional (nonnegative (int number_))) v = Ok o
  <-> (v = None /\ o = Some zero)
      \/ (exists x, v = Some (JNum x) /\ valid_int x /\ o = Some x).
Proof.
  destruct v as [y |].
  - rewrite default_Some, optional_Ok. split.
    + intros [[[=] _] | [y' [x [[= <-] [H ->]]]]]. right.
      apply nonneg_int_Ok in H. destruct H as [[= ->] Hv]. now exists x.
    + intros [[[=] _] | [x [[= ->] [Hv ->]]]]. right.
      exists (JNum x), x. split_ands; trivial. now apply nonneg_int_Ok.
  - rewrite default_None. split.
    + intros [= <-]. now left.
    + now intros [[_ ->] | [x [[=] _]]].
Qed.

Lemma ExtractRecipe_ComponentObject_Ok v c :
  ExtractRecipe.ComponentObject v = Ok c
  <-> exists kv, v = Some (JObj kv)
      /\ (get "name" kv = Some (JStr (Component.name c))
          /\ Component.name c <> "")
      /\ (get "type" kv = Some (JStr (Component.type c))
          /\ In (Component.type c) component_types)
      /\ (get "prep_time_minutes" kv
          = Some (JNum (Component.prep_time_minutes c))
          /\ valid_int (Component.prep_time_minutes c))
      /\ (get "cook_time_minutes" kv
          = Some (JNum (Component.cook_time_minutes c))
          /\ valid_int (Component.cook_time_minutes c))
      /\ ((get "cook_temp_fahrenheit" kv = None
           /\ Component.cook_temp_fahrenheit c = zero)
          \/ (get "cook_temp_fahrenheit" kv
              = Some (JNum (Component.cook_temp_fahrenheit c))
              /\ valid_int (Component.cook_temp_fahrenheit c)))
      /\ ((get "cook_method" kv = None /\ Component.cook_method c = "")
          \/ get "cook_method" kv = Some (JStr (Component.cook_method c)))
      /\ (get "portion_weight_grams" kv
          = Some (JNum (Component.portion_weight_grams c))
          /\ valid_number (Component.portion_weight_grams c))
      /\ array ExtractRecipe.IngredientObject (get "ingredients" kv)
         = Ok (Component.ingredients c).
Proof.
  unfold ExtractRecipe.ComponentObject. split.
  - intros H. zod_inv. subst. cbn [Component.name Component.type
      Component.prep_time_minutes Component.cook_time_minutes
      Component.cook_temp_fahrenheit Component.cook_method
      Component.portion_weight_grams Component.ingredients].
    exists x. split_ands; try solve [reflexivity | assumption].
    + now apply min1_nonempty.
    + match goal with
      | Hd : default _ (optional _) _ = Ok _ |- _ =>
          apply default_int_Ok in Hd;
          destruct Hd as [[Hg ->] | [y [Hg [Hv ->]]]]
      end; [now left | now right].
    + match goal with
      | Hd : default _ string_ _ = Ok _ |- _ => now apply default_string_Ok
      end.
  - intros [kv [-> [[Hn Hne] [Ht [Hp [Hc [Hf [Hm [Hw Hi]]]]]]]]].
    apply min1_nonempty in Hne.
    apply default_string_Ok in Hm.
    assert (Hf' : default (JNum zero) (optional (nonnegative (int number_)))
                    (get "cook_temp_fahrenheit" kv)
                  = Ok (Some (Component.cook_temp_fahrenheit c))).
    { apply default_int_Ok. destruct Hf as [[Hg ->] | [Hg Hv]];
        [now left | right; eauto]. }
    apply object_Ok. exists kv. split; [reflexivity |].
    apply bind_Ok. exists (Component.name c).
    split; [apply min_Ok; split; [now apply string_Ok | exact Hne] |].
    zod_build. now destruct c.
Qed.

Lemma ExtractRecipe_RecipeSchema_Ok v d :
  ExtractRecipe.RecipeSchema v = Ok d
  <-> exists kv, v = Some (JObj kv)
      /\ (get "recipe_name" kv = Some (JStr (RecipeDocument.recipe_name d))
          /\ RecipeDocument.recipe_name d <> "")
      /\ ((get "chef" kv = None /\ RecipeDocument.chef d = "")
          \/ get "chef" kv = Some (JStr (RecipeDocument.chef d)))
      /\ (get "yield_count" kv = Some (JNum (RecipeDocument.yield_count d))
          /\ valid_number (RecipeDocument.yield_count d))
      /\ array string_ (get "allergens" kv) = Ok (RecipeDocument.allergens d)
      /\ array ExtractRecipe.ComponentObject (get "components" kv)
         = Ok (RecipeDocument.components d).
Proof.
  unfold ExtractRecipe.RecipeSchema. split.
  - intros H. zod_inv. subst. cbn [RecipeDocument.recipe_name
      RecipeDocument.chef RecipeDocument.yield_count
      RecipeDocument.allergens RecipeDocument.components].
    exists x. split_ands; try solve [reflexivity | assumption].
    + now apply min1_nonempty.
    + match goal with
      | Hd : default _ string_ _ = Ok _ |- _ => now apply default_string_Ok
      end.
  - intros [kv [-> [[Hn Hne] [Hc [Hy [Hal Hcs]]]]]].
    apply min1_nonempty in Hne. apply default_string_Ok in Hc.
    apply object_Ok. exists kv. split; [reflexivity |]. unfold describe.
    apply bind_Ok. exists (RecipeDocument.recipe_name d).
    split; [apply min_Ok; split; [now apply string_Ok | exact Hne] |].
    zod_build. now destruct d.
Qed.

(** X12.  Every document the schema of extractRecipe.ts produces has a
    non-empty [recipe_name] and non-empty component names, component types
    among the four categories, numbers that passed their checks, and no
    ingredient with [sub_ingredients]. *)
Theorem extract_normalize_normal j d :
  ExtractRecipe.normalize j = Ok d -> Extract_Recipe_normal d.
Proof.
  unfold ExtractRecipe.normalize. intros H.
  apply ExtractRecipe_RecipeSchema_Ok in H.
  destruct H as [kv [_ [[_ Hne] [_ [[_ Hy] [_ Hcs]]]]]].
  unfold Extract_Recipe_normal. split_ands; trivial.
  apply array_Ok in Hcs. destruct Hcs as [l [_ Hcs]].
  eapply Forall2_Forall_right; [| exact Hcs]. clear.
  intros cj c H. apply ExtractRecipe_ComponentObject_Ok in H.
  destruct H as [kv [_ [[_ Hne] [[_ Ht] [[_ Hp] [[_ Hc] [Hf [_ [[_ Hw] Hi]]]]]]]]].
  unfold Extract_Component_normal. split_ands; trivial.
  - destruct Hf as [[_ ->] | [_ Hf]]; [repeat split | exact Hf].
  - apply array_Ok in Hi. destruct Hi as [l [_ Hi]].
    eapply Forall2_Forall_right; [| exact Hi]. clear.
    intros ij i H. apply ExtractRecipe_IngredientObject_Ok in H.
    destruct H as [kv [_ [_ [_ [Hv Hs]]]]]. now split.
Qed.

Lemma extract_normalize_normal_witness :
  Extract_Recipe_normal Samples.sparse_document.
Proof.
  apply (extract_normalize_normal Samples.sparse). reflexivity.
Defined.

(** X13.  In extractRecipe.ts a missing [chef], [cook_method] or
    [cook_temp_fahrenheit] is filled in with the empty string, the empty
    string and 0; a [null] in their place is not: the value is refused. *)
Theorem extract_defaults :
  (forall kv d, ExtractRecipe.normalize (JObj kv) = Ok d ->
     get "chef" kv = None -> RecipeDocument.chef d = "")
  /\ (forall kv c, ExtractRecipe.ComponentObject (Some (JObj kv)) = Ok c ->
        (get "cook_method" kv = None -> Component.cook_method c = "")
        /\ (get "cook_temp_fahrenheit" kv = None ->
              Component.cook_temp_fahrenheit c = zero))
  /\ (forall kv, get "chef" kv = Some JNull ->
        is_ok (ExtractRecipe.normalize (JObj kv)) = false)
  /\ (forall kv,
        get "cook_method" kv = Some JNull
        \/ get "cook_temp_fahrenheit" kv = Some JNull ->
        is_ok (ExtractRecipe.ComponentObject (Some (JObj kv))) = false).
Proof.
  split_ands.
  - intros kv d H Hg. unfold ExtractRecipe.normalize in H.
    apply ExtractRecipe_RecipeSchema_Ok in H.
    destruct H as [kv' [[= <-] [_ [[[_ Hc] | Hc] _]]]]; [exact Hc |].
    congruence.
  - intros kv c H. apply ExtractRecipe_ComponentObject_Ok in H.
    destruct H as [kv' [[= <-] [_ [_ [_ [_ [Hf [Hm _]]]]]]]]. split; intros Hg.
    + destruct Hm as [[_ Hm] | Hm]; [exact Hm | congruence].
    + destruct Hf as [[_ Hf] | [Hf _]]; [exact Hf | congruence].
  - intros kv Hg. apply is_ok_false. intros d H.
    unfold ExtractRecipe.normalize in H.
    apply ExtractRecipe_RecipeSchema_Ok in H.
    destruct H as [kv' [[= <-] [_ [[[Hc _] | Hc] _]]]]; congruence.
  - intros kv Hg. apply is_ok_false. intros c H.
    apply ExtractRecipe_ComponentObject_Ok in H.
    destruct H as [kv' [[= <-] [_ [_ [_ [_ [Hf [Hm _]]]]]]]].
    destruct Hg as [Hg | Hg].
    + destruct Hm as [[Hm _] | Hm]; congruence.
    + destruct Hf as [[Hf _] | [Hf _]]; congruence.
Qed.

Lemma extract_defaults_witness :
  ExtractRecipe.normalize Samples.sparse = Ok Samples.sparse_document
  /\ RecipeDocument.chef Samples.sparse_document = "".
Proof.
  split; [reflexivity |].
  apply (proj1 extract_defaults
           (match Samples.sparse with JObj kv => kv | _ => [] end));
    reflexivity.
Defined.

Lemma Extract_Ingredient_reparse i :
  Extract_Ingredient_normal i ->
  ExtractRecipe.IngredientObject (Some (Ingredient.to_json i)) = Ok i.
Proof.
  destruct i as [n a subs]. intros [Ha Hs]. simpl in Ha, Hs. subst subs.
  apply ExtractRecipe_IngredientObject_Ok. eexists.
  split; [reflexivity |]. split_ands; solve [reflexivity | exact Ha].
Qed.

Arguments ExtractRecipe.IngredientObject : simpl never.
Arguments ExtractRecipe.ComponentObject : simpl never.

Lemma Extract_Component_reparse c :
  Extract_Component_normal c ->
  ExtractRecipe.ComponentObject (Some (Component.to_json c)) = Ok c.
Proof.
  intros [Hn [Ht [Hp [Hc [Hf [Hw Hi]]]]]].
  apply ExtractRecipe_ComponentObject_Ok. eexists. split; [reflexivity |].
  split_ands; try solve [reflexivity | assumption].
  - right. now split.
  - now right.
  - simpl. apply parse_elements_map with (P := Extract_Ingredient_normal);
      [apply Extract_Ingredient_reparse | assumption].
Qed.

(** X14.  The schema of extractRecipe.ts is idempotent as well: a document
    it produced, given back as the object it is, is accepted and comes out
    unchanged. *)
Theorem extract_normalize_idempotent j d :
  ExtractRecipe.normalize j = Ok d ->
  ExtractRecipe.normalize (RecipeDocument.to_json d) = Ok d.
Proof.
  intros H. apply extract_normalize_normal in H.
  destruct H as [Hn [Hy Hc]]. unfold ExtractRecipe.normalize.
  apply ExtractRecipe_RecipeSchema_Ok. eexists. split; [reflexivity |].
  split_ands; try solve [reflexivity | assumption].
  - now right.
  - simpl. apply strings_reparse.
  - simpl. apply parse_elements_map with (P := Extract_Component_normal);
      [apply Extract_Component_reparse | assumption].
Qed.

Lemma extract_normalize_idempotent_witness :
  ExtractRecipe.normalize (RecipeDocument.to_json Samples.sparse_document)
  = Ok Samples.sparse_document.
Proof.
  apply (extract_normalize_idempotent Samples.sparse). reflexivity.
Defined.

Lemma Forall2_map_In {A B C} (R : A -> B -> Prop) (S : A -> C -> Prop)
    (f : B -> C) l r :
  (forall x a, In x l -> R x a -> S x (f a)) ->
  Forall2 R l r -> Forall2 S l (map f r).
Proof.
  intros HS H. induction H as [| x a l r Hx H IH]; simpl; constructor.
  - apply HS; [now left | exact Hx].
  - apply IH. intros y b Hy. apply HS. now right.
Qed.

Lemma route_ingredient_is_extract_ingredient x i :
  Route.IngredientSchema (Some x) = Ok i ->
  ExtractRecipe.IngredientObject (Some x) = Ok (Ingredient_erase i).
Proof.
  unfold Route.IngredientSchema. intros H. apply transform_Ok in H.
  destruct H as [data [H ->]]. apply Route_IngredientObject_Ok in H.
  destruct H as [kv [-> [Hn [Ha [Hv _]]]]].
  apply ExtractRecipe_IngredientObject_Ok. exists kv. unfold Ingredient_erase.
  destruct (IngredientTransform_fields data) as [-> ->]. now split_ands.
Qed.

Lemma route_component_is_extract_component kv c :
  Route.ComponentObject (Some (JObj kv)) = Ok c ->
  get "name" kv <> Some (JStr "") ->
  ExtractRecipe.ComponentObject (Some (JObj kv)) = Ok (Component_erase c).
Proof.
  intros H Hne. apply Route_ComponentObject_Ok in H.
  destruct H as [kv' [[= <-] [Hn [Ht [Hp [Hc [Hf [Hm [Hw Hi]]]]]]]]].
  destruct Ht, Hp, Hc, Hf, Hw.
  apply ExtractRecipe_ComponentObject_Ok. exists kv. unfold Component_erase.
  cbn [Component.name Component.type Component.prep_time_minutes
       Component.cook_time_minutes Component.cook_temp_fahrenheit
       Component.cook_method Component.portion_weight_grams
       Component.ingredients].
  split_ands; try solve [reflexivity | assumption | now right].
  - intros E. rewrite E in Hn. contradiction.
  - apply array_Ok in Hi. destruct Hi as [l [Hg Hi]].
    apply array_Ok. exists l. split; [exact Hg |].
    eapply Forall2_map_In; [| exact Hi].
    intros x a _. apply route_ingredient_is_extract_ingredient.
Qed.

(** X15.  What the route accepts, extractRecipe.ts accepts too, unless a
    name is empty: if the route accepts an object whose [recipe_name] and
    whose components' [name]s are not the empty string, so does
    extractRecipe.ts, and its document is the route's up to
    [sub_ingredients] and the sign of a zero. *)
Theorem route_accepted_named_is_extract_accepted kv d1 :
  Route.normalize (JObj kv) = Ok d1 ->
  get "recipe_name" kv <> Some (JStr "") ->
  (forall comps ckv, get "components" kv = Some (JArr comps) ->
     In (JObj ckv) comps -> get "name" ckv <> Some (JStr "")) ->
  exists d2,
    ExtractRecipe.normalize (JObj kv) = Ok d2
    /\ erase_sub_ingredients d1 = Route.RecipeTransform d2.
Proof.
  intros H Hname Hnames. pose proof H as H1.
  apply Route_normalize_Ok in H. destruct H as [data [H _]].
  apply Route_RecipeObject_Ok in H.
  destruct H as [kv' [[= <-] [Hn [Hch [[Hy Hyv] [Hal Hcs]]]]]].
  assert (H2 : ExtractRecipe.normalize (JObj kv)
               = Ok (erase_sub_ingredients data)).
  { unfold ExtractRecipe.normalize. apply ExtractRecipe_RecipeSchema_Ok.
    exists kv. unfold erase_sub_ingredients.
    cbn [RecipeDocument.recipe_name RecipeDocument.chef
         RecipeDocument.yield_count RecipeDocument.allergens
         RecipeDocument.components].
    split_ands; try solve [reflexivity | assumption | now right].
    - intros E. rewrite E in Hn. contradiction.
    - apply array_Ok in Hcs. destruct Hcs as [l [Hg Hcs]].
      apply array_Ok. exists l. split; [exact Hg |].
      eapply Forall2_map_In; [| exact Hcs].
      intros x c Hin Hx. pose proof Hx as Hx'.
      apply Route_ComponentObject_Ok in Hx'. destruct Hx' as [ckv [[= ->] _]].
      apply route_component_is_extract_component; [exact Hx |].
      eapply Hnames; eassumption. }
  exists (erase_sub_ingredients data). split; [exact H2 |].
  eapply normalize_agree; eassumption.
Qed.

Lemma route_accepted_named_is_extract_accepted_witness :
  exists d2,
    ExtractRecipe.normalize Samples.salmon = Ok d2
    /\ erase_sub_ingredients Samples.salmon_document
       = Route.RecipeTransform d2.
Proof.
  apply (route_accepted_named_is_extract_accepted
           (match Samples.salmon with JObj kv => kv | _ => [] end)
           (d1 := Samples.salmon_document)).
  - reflexivity.
  - discriminate.
  - intros comps ckv [= <-] [[= <-] | []]. discriminate.
Defined.

(** X16.  A mixture keeps its parts: when an ingredient comes out with
    [sub_ingredients], the input had an array there, and the output holds
    its elements one for one, in order, each under its input [name] and
    [amount_per_portion_grams]. *)
Theorem sub_ingredients_preserved kv i subs :
  Route.IngredientSchema (Some (JObj kv)) = Ok i ->
  Ingredient.sub_ingredients i = Some subs ->
  exists l,
    get "sub_ingredients" kv = Some (JArr l)
    /\ Forall2
         (fun sj s =>
            exists skv,
              sj = JObj skv
              /\ get "name" skv = Some (JStr (SubIngredient.name s))
              /\ get "amount_per_portion_grams" skv
                 = Some (JNum (SubIngredient.amount_per_portion_grams s)))
         l subs.
Proof.
  unfold Route.IngredientSchema. intros H Hs. apply transform_Ok in H.
  destruct H as [data [H ->]]. apply Route_IngredientObject_Ok in H.
  destruct H as [kv' [[= <-] [_ [_ [_ Ho]]]]].
  rewrite IngredientTransform_sub_ingredients in Hs.
  apply optional_Ok in Ho.
  destruct Ho as [[_ Ho] | [y [r [Hg [Ha Ho]]]]]; rewrite Ho in Hs;
    [discriminate |].
  assert (E : r = subs) by (destruct r; congruence). subst r.
  apply array_Ok in Ha. destruct Ha as [l [[= ->] Ha]]. exists l.
  split; [exact Hg |]. eapply Forall2_impl_l; [| exact Ha]. clear.
  intros sj s H. apply Route_SubIngredientObject_Ok in H.
  destruct H as [skv [[= ->] [Hn [Ha _]]]]. now exists skv.
Qed.

Lemma sub_ingredients_preserved_witness :
  exists l,
    get "sub_ingredients"
      (match Samples.herb_mix with JObj kv => kv | _ => [] end)
    = Some (JArr l)
    /\ Forall2
         (fun sj s =>
            exists skv,
              sj = JObj skv
              /\ get "name" skv = Some (JStr (SubIngredient.name s))
              /\ get "amount_per_portion_grams" skv
                 = Some (JNum (SubIngredient.amount_per_portion_grams s)))
         l [SubIngredient.mk "Panko" (of_Z 12)].
Proof.
  apply (sub_ingredients_preserved
           (match Samples.herb_mix with JObj kv => kv | _ => [] end)
           (i := Ingredient.mk "Herb mix" (of_Z 20)
                   (Some [SubIngredient.mk "Panko" (of_Z 12)])));
    reflexivity.
Defined.
